(** * Algo-Medecine: shallow embedding of the core analysis modules

    This development models the three core modules of the repository
    ([src/core/pyramid_analysis.py], [src/core/algo_verite.py] and
    [src/core/medical_predictions.py]) and proves properties of them.

    Modelling conventions.
    - Python [int] is [Z]; Python [float] arithmetic is idealised as exact
      rational arithmetic in [Q].  Every concrete comparison used below is far
      from a rounding boundary.
    - Python [str] is a Rocq [string] holding the UTF-8 bytes of the text.
    - Exceptions are the constructors of [exn]; a computation that may raise
      returns [result A].
    - [str.upper] (full Unicode case mapping) and [numpy.std] (a float square
      root) are not re-implemented: they are Section variables, so every
      theorem about them holds for any implementation. *)

From Stdlib Require Import String Ascii List ZArith QArith Lia Bool.
From Stdlib Require Import Qminmax Qabs Qround Qpower Lqa.
Import ListNotations.
Open Scope string_scope.

(** ** Python runtime fragments *)

(** Exceptions raised by the modelled code. *)
Inductive exn : Type :=
| ValueError (msg : string)
| KeyError (key : string)
| ZeroDivisionError
| IndexError.

Inductive result (A : Type) : Type :=
| Ok (a : A)
| Err (e : exn).
Arguments Ok {A} a.
Arguments Err {A} e.

Definition bind {A B : Type} (m : result A) (k : A -> result B) : result B :=
  match m with
  | Ok a => k a
  | Err e => Err e
  end.

Notation "'let*' x ':=' m 'in' k" := (bind m (fun x => k))
  (at level 200, x binder, m at level 100, k at level 200).

(** [str(e)] for the exceptions above. *)
Definition py_str_exn (e : exn) : string :=
  match e with
  | ValueError m => m
  | KeyError k => "'" ++ k ++ "'"
  | ZeroDivisionError => "division by zero"
  | IndexError => "list assignment index out of range"
  end.

(** Python [int(x)] on a float: truncation toward zero. *)
Definition py_int (q : Q) : Z :=
  if Qle_bool 0 q then Qfloor q else (- Qfloor (- q))%Z.

(** Python [round(x)] on a float (ties to even); used only by the spec-side
    formula of claim C1. *)
Definition py_round (q : Q) : Z :=
  let f := Qfloor q in
  let d := (q - inject_Z f)%Q in
  if Qlt_le_dec d (1 # 2) then f
  else if Qeq_bool d (1 # 2) then (if Z.even f then f else (f + 1)%Z)
  else (f + 1)%Z.

Definition Qmax3 (a b c : Q) : Q := Qmax a (Qmax b c).

(** [sum(xs) / len(xs)] *)
Definition Qsum (xs : list Q) : Q := fold_right Qplus 0%Q xs.
Definition Qmean (xs : list Q) : Q := Qsum xs / inject_Z (Z.of_nat (length xs)).

(** [x in xs] on strings. *)
Definition str_in (x : string) (xs : list string) : bool :=
  existsb (String.eqb x) xs.

(** Dictionary lookup in an association list (first match). *)
Fixpoint assoc {V : Type} (k : string) (d : list (string * V)) : option V :=
  match d with
  | [] => None
  | (k', v) :: d' => if String.eqb k k' then Some v else assoc k d'
  end.

(** ** The pyramid builder (identical in the three modules)

    [_build_pyramid] / [_construire_pyramide] / [_construire_pyramide_sante]:
    two [while len(current) > 1] loops; the upper loop does
    [insert(0, next_level)], the lower loop does [append(next_level)]. *)

Fixpoint next_sum (l : list Z) : list Z :=
  match l with
  | x :: ((y :: _) as t) => (x + y)%Z :: next_sum t
  | _ => []
  end.

Fixpoint next_absdiff (l : list Z) : list Z :=
  match l with
  | x :: ((y :: _) as t) => Z.abs (x - y) :: next_absdiff t
  | _ => []
  end.

(** One [while len(current) > 1] loop, returning the levels in the order
    they are produced; [fuel] bounds the iterations (the length of the base
    suffices, see [reduce_levels_length]). *)
Fixpoint reduce_levels (step : list Z -> list Z) (fuel : nat) (cur : list Z)
  : list (list Z) :=
  match fuel with
  | O => []
  | S k =>
      if Nat.ltb 1 (length cur)
      then let nx := step cur in nx :: reduce_levels step k nx
      else []
  end.

Record pyramid : Type := mkPyramid {
  p_base : list Z;
  p_upper : list (list Z);   (** 'upper' / 'superieure', apex first *)
  p_lower : list (list Z)    (** 'lower' / 'inferieure', floor last *)
}.

Definition build_pyramid (base : list Z) : pyramid :=
  {| p_base := base;
     p_upper := rev (reduce_levels next_sum (length base) base);
     p_lower := reduce_levels next_absdiff (length base) base |}.

(** ** pyramid_analysis.py: [_calculate_pyramid_metrics] *)

Record pyramid_metrics : Type := mkMetrics {
  height : nat;
  width : nat;
  stability_score : Q;
  symmetry_score : Q;
  convergence_speed : Q
  (** the [entropy] field (a float logarithm) is not modelled *)
}.

Definition Qnat (n : nat) : Q := inject_Z (Z.of_nat n).

Section PyramidAnalysis.

(** [numpy.std] over a list of integers, as a float. *)
Variable np_std : list Z -> Q.

(** [_calculate_stability] *)
Definition calculate_stability (p : pyramid) : Q :=
  match p_lower p with
  | [] => 1
  | _ =>
      let final_level := last (p_lower p) [] in
      if Nat.eqb (length final_level) 1 then 1
      else
        let m := Qmean (map inject_Z final_level) in
        let variation := np_std final_level / (if Qeq_bool m 0 then 1 else m) in
        Qmax 0 (1 - variation)
  end.

(** The symmetry score of [_calculate_pyramid_metrics]. *)
Definition pyramid_symmetry (p : pyramid) : Q :=
  let u := length (p_upper p) in
  let l := length (p_lower p) in
  1 - Qabs (Qnat u - Qnat l) / Qnat (Nat.max u (Nat.max l 1)).

Definition calculate_pyramid_metrics (p : pyramid) : pyramid_metrics :=
  let base_len := length (p_base p) in
  let u := length (p_upper p) in
  let l := length (p_lower p) in
  {| height := Nat.max u l;
     width := base_len;
     stability_score := calculate_stability p;
     symmetry_score := pyramid_symmetry p;
     convergence_speed := if Nat.ltb 0 base_len then Qnat l / Qnat base_len else 0 |}.

End PyramidAnalysis.

(** ** pyramid_analysis.py: classification, patterns and comparison *)
Module PyramidAnalyzer.

Inductive pyramid_type := PERFECT | STABLE | UNSTABLE | HARMONIOUS | CHAOTIC.

(** [PyramidType(...).value] *)
Definition pyramid_type_value (t : pyramid_type) : string :=
  match t with
  | PERFECT => "PYRAMIDE_PARFAITE"
  | STABLE => "PYRAMIDE_STABLE"
  | UNSTABLE => "PYRAMIDE_INSTABLE"
  | HARMONIOUS => "PYRAMIDE_HARMONIEUSE"
  | CHAOTIC => "PYRAMIDE_CHAOTIQUE"
  end.

Definition is_unstable (t : pyramid_type) : bool :=
  match t with UNSTABLE => true | _ => false end.

(** [a > b] on floats. *)
Definition Qgtb (a b : Q) : bool := negb (Qle_bool a b).

Definition when (b : bool) (s : string) : list string := if b then [s] else [].

(** [_classify_pyramid] *)
Definition classify_pyramid (m : pyramid_metrics) : pyramid_type :=
  if Qgtb (symmetry_score m) (9 # 10) && Qgtb (stability_score m) (9 # 10)
  then PERFECT
  else if Qgtb (stability_score m) (7 # 10) then STABLE
  else if Qgtb (symmetry_score m) (8 # 10) then HARMONIOUS
  else if Qgtb (3 # 10) (stability_score m) then UNSTABLE
  else CHAOTIC.

(** The loop of [_is_fibonacci_like]: [sequence[i] == sequence[i-1] + sequence[i-2]]. *)
Fixpoint fibonacci_steps (s : list Z) : bool :=
  match s with
  | a :: ((b :: c :: _) as t) => ((c =? b + a)%Z && fibonacci_steps t)%bool
  | _ => true
  end.

(** [_is_fibonacci_like] *)
Definition is_fibonacci_like (s : list Z) : bool :=
  if Nat.ltb (length s) 3 then false else fibonacci_steps s.

(** The loop of [_is_geometric_sequence]: [None] when it returns [False] on a
    zero predecessor. *)
Fixpoint ratios (s : list Z) : option (list Q) :=
  match s with
  | a :: ((b :: _) as t) =>
      if (a =? 0)%Z then None
      else option_map (cons (inject_Z b / inject_Z a)) (ratios t)
  | _ => Some []
  end.

(** [[sequence[i] - sequence[i-1] for i in range(1, len(sequence))]] *)
Fixpoint differences (s : list Z) : list Z :=
  match s with
  | a :: ((b :: _) as t) => (b - a)%Z :: differences t
  | _ => []
  end.

(** [_generate_recommendations]; [entropy] is the [entropy] field of the
    metrics. *)
Definition generate_recommendations (m : pyramid_metrics) (entropy : Q)
  (t : pyramid_type) : list string :=
  let recommendations :=
    (when (is_unstable t)
       "Structure instable - recommandation: renforcer la cohérence" ++
     when (Qgtb (6 # 10) (symmetry_score m))
       "Asymétrie détectée - équilibrer construction/déconstruction" ++
     when (Qgtb (3 # 10) (convergence_speed m))
       "Convergence lente - simplifier la structure de base" ++
     when (Qgtb entropy 2)
       "Entropie élevée - réduire la complexité aléatoire")%list in
  match recommendations with
  | [] => ["Structure optimale - maintenir la configuration actuelle"]
  | _ => recommendations
  end.

(** [_calculate_pyramid_similarity] *)
Definition calculate_pyramid_similarity (m1 m2 : pyramid_metrics) : Q :=
  let height_sim :=
    1 - Qabs (Qnat (height m1) - Qnat (height m2)) /
        Qnat (Nat.max (height m1) (Nat.max (height m2) 1)) in
  let stability_sim := 1 - Qabs (stability_score m1 - stability_score m2) in
  let symmetry_sim := 1 - Qabs (symmetry_score m1 - symmetry_score m2) in
  Qmean [height_sim; stability_sim; symmetry_sim].

(** [_assess_compatibility] *)
Definition assess_compatibility (m1 m2 : pyramid_metrics) : string :=
  let similarity := calculate_pyramid_similarity m1 m2 in
  if Qgtb similarity (9 # 10) then "COMPATIBILITÉ PARFAITE"
  else if Qgtb similarity (7 # 10) then "HAUTE COMPATIBILITÉ"
  else if Qgtb similarity (5 # 10) then "COMPATIBILITÉ MODÉRÉE"
  else "FAIBLE COMPATIBILITÉ".

(** The result of [analyze_pyramid_structure]. *)
Record structure_analysis : Type := mkStructureAnalysis {
  sa_pyramid : pyramid;
  sa_metrics : pyramid_metrics;
  sa_entropy : Q;
  sa_type : string;
  sa_patterns : list string;
  sa_recommendations : list string
}.

(** The result of [compare_pyramids]; [metrics_differences] (plain absolute
    differences of the fields) is not modelled. *)
Record comparison : Type := mkComparison {
  similarity_score : Q;
  compatibility : string
}.

Section Analyzer.

(** [numpy.std] over a list of integers and over a list of floats. *)
Variable np_std : list Z -> Q.
Variable np_std_q : list Q -> Q.
(** [_calculate_entropy] (a float logarithm). *)
Variable calculate_entropy : list Z -> Q.

(** [_is_geometric_sequence] *)
Definition is_geometric_sequence (s : list Z) : bool :=
  if Nat.ltb (length s) 2 then false
  else match ratios s with
       | None => false
       | Some rs => Qgtb (1 # 10) (np_std_q rs)
       end.

(** [_is_arithmetic_sequence] *)
Definition is_arithmetic_sequence (s : list Z) : bool :=
  if Nat.ltb (length s) 2 then false
  else Qgtb (1 # 10) (np_std (differences s)).

(** [_detect_patterns] *)
Definition detect_patterns (p : pyramid) (m : pyramid_metrics) : list string :=
  (when (is_fibonacci_like (p_base p)) "Séquence de type Fibonacci" ++
   when (is_geometric_sequence (p_base p)) "Progression géométrique" ++
   when (is_arithmetic_sequence (p_base p)) "Progression arithmétique" ++
   when (Qgtb (convergence_speed m) (7 # 10)) "Convergence rapide" ++
   when (Qgtb (symmetry_score m) (8 # 10)) "Structure harmonieuse")%list.

(** [analyze_pyramid_structure] *)
Definition analyze_pyramid_structure (base_sequence : list Z) : structure_analysis :=
  let p := build_pyramid base_sequence in
  let m := calculate_pyramid_metrics np_std p in
  let entropy := calculate_entropy (p_base p) in
  let t := classify_pyramid m in
  {| sa_pyramid := p;
     sa_metrics := m;
     sa_entropy := entropy;
     sa_type := pyramid_type_value t;
     sa_patterns := detect_patterns p m;
     sa_recommendations := generate_recommendations m entropy t |}.

(** [compare_pyramids] *)
Definition compare_pyramids (p1 p2 : pyramid) : comparison :=
  let m1 := calculate_pyramid_metrics np_std p1 in
  let m2 := calculate_pyramid_metrics np_std p2 in
  {| similarity_score := calculate_pyramid_similarity m1 m2;
     compatibility := assess_compatibility m1 m2 |}.

End Analyzer.

End PyramidAnalyzer.

(** [algo_verite.py]: [_calculer_symetrie], with its guard for empty
    branches. *)
Definition calculer_symetrie (p : pyramid) : Q :=
  match p_upper p, p_lower p with
  | [], _ | _, [] => 0
  | _, _ =>
      let s := length (p_upper p) in
      let i := length (p_lower p) in
      1 - Qabs (Qnat s - Qnat i) / Qnat (Nat.max s i)
  end.

(** ** SHA-256 ([hashlib.sha256(...).hexdigest()])

    FIPS 180-4 on 32-bit words held in [Z]; used by [algo_verite.py] for its
    signatures. *)
Module Sha256.

Definition mask32 : Z := (2 ^ 32 - 1)%Z.
Definition w32 (x : Z) : Z := Z.land x mask32.
Definition add32 (x y : Z) : Z := w32 (x + y).
Definition rotr (n x : Z) : Z :=
  Z.lor (Z.shiftr x n) (w32 (Z.shiftl x (32 - n))).
Definition xor3 (a b c : Z) : Z := Z.lxor a (Z.lxor b c).

Definition ch (x y z : Z) : Z :=
  Z.lxor (Z.land x y) (Z.land (Z.lxor x mask32) z).
Definition maj (x y z : Z) : Z :=
  xor3 (Z.land x y) (Z.land x z) (Z.land y z).
Definition bsig0 (x : Z) : Z := xor3 (rotr 2 x) (rotr 13 x) (rotr 22 x).
Definition bsig1 (x : Z) : Z := xor3 (rotr 6 x) (rotr 11 x) (rotr 25 x).
Definition ssig0 (x : Z) : Z := xor3 (rotr 7 x) (rotr 18 x) (Z.shiftr x 3).
Definition ssig1 (x : Z) : Z := xor3 (rotr 17 x) (rotr 19 x) (Z.shiftr x 10).

(** The round constants of FIPS 180-4, in decimal. *)
Definition K : list Z := [
  1116352408; 1899447441; 3049323471; 3921009573; 961987163; 1508970993;
  2453635748; 2870763221; 3624381080; 310598401; 607225278; 1426881987;
  1925078388; 2162078206; 2614888103; 3248222580; 3835390401; 4022224774;
  264347078; 604807628; 770255983; 1249150122; 1555081692; 1996064986;
  2554220882; 2821834349; 2952996808; 3210313671; 3336571891; 3584528711;
  113926993; 338241895; 666307205; 773529912; 1294757372; 1396182291;
  1695183700; 1986661051; 2177026350; 2456956037; 2730485921; 2820302411;
  3259730800; 3345764771; 3516065817; 3600352804; 4094571909; 275423344;
  430227734; 506948616; 659060556; 883997877; 958139571; 1322822218;
  1537002063; 1747873779; 1955562222; 2024104815; 2227730452; 2361852424;
  2428436474; 2756734187; 3204031479; 3329325298]%Z.

(** The initial hash value of FIPS 180-4, in decimal. *)
Definition H0 : list Z := [
  1779033703; 3144134277; 1013904242; 2773480762;
  1359893119; 2600822924; 528734635; 1541459225]%Z.

(** Padding: [0x80], zeros, then the bit length on 8 bytes big-endian. *)
Fixpoint be_bytes (n : nat) (x : Z) : list Z :=
  match n with
  | O => []
  | S k => be_bytes k (Z.shiftr x 8) ++ [Z.land x 255]
  end.

Definition pad (msg : list Z) : list Z :=
  let len := Z.of_nat (length msg) in
  let zeros := Z.to_nat ((55 - len) mod 64) in
  msg ++ [128%Z] ++ repeat 0%Z zeros ++ be_bytes 8 (8 * len).

Fixpoint words (bs : list Z) : list Z :=
  match bs with
  | b0 :: b1 :: b2 :: b3 :: rest =>
      (Z.lor (Z.shiftl b0 24) (Z.lor (Z.shiftl b1 16) (Z.lor (Z.shiftl b2 8) b3)))
        :: words rest
  | _ => []
  end.

Fixpoint blocks (fuel : nat) (ws : list Z) : list (list Z) :=
  match fuel with
  | O => []
  | S k =>
      match ws with
      | [] => []
      | _ => firstn 16 ws :: blocks k (skipn 16 ws)
      end
  end.

(** Message schedule, kept most-recent-first while it grows. *)
Fixpoint extend (n : nat) (rw : list Z) : list Z :=
  match n with
  | O => rw
  | S k =>
      let w := add32 (add32 (ssig1 (nth 1 rw 0%Z)) (nth 6 rw 0%Z))
                     (add32 (ssig0 (nth 14 rw 0%Z)) (nth 15 rw 0%Z)) in
      extend k (w :: rw)
  end.

Definition schedule (block : list Z) : list Z := rev (extend 48 (rev block)).

Definition round (st : list Z) (kw : Z * Z) : list Z :=
  match st with
  | [a; b; c; d; e; f; g; h] =>
      let t1 := add32 (add32 (add32 h (bsig1 e)) (add32 (ch e f g) (fst kw))) (snd kw) in
      let t2 := add32 (bsig0 a) (maj a b c) in
      [add32 t1 t2; a; b; c; add32 d t1; e; f; g]
  | _ => st
  end.

Definition compress (hs : list Z) (block : list Z) : list Z :=
  let st := fold_left round (combine K (schedule block)) hs in
  map (fun p => add32 (fst p) (snd p)) (combine hs st).

Definition digest (msg : list Z) : list Z :=
  let ws := words (pad msg) in
  fold_left compress (blocks (length ws) ws) H0.

Definition hex_digit (d : Z) : ascii :=
  if (d <? 10)%Z then ascii_of_nat (48 + Z.to_nat d)
  else ascii_of_nat (87 + Z.to_nat d).

Definition hex_word (w : Z) : list ascii :=
  map (fun i => hex_digit (Z.land (Z.shiftr w (28 - 4 * Z.of_nat i)) 15))
      (seq 0 8).

Definition bytes_of_string (s : string) : list Z :=
  map (fun a => Z.of_nat (nat_of_ascii a)) (list_ascii_of_string s).

(** [hashlib.sha256(s.encode()).hexdigest()] *)
Definition hexdigest (s : string) : string :=
  string_of_list_ascii (flat_map hex_word (digest (bytes_of_string s))).

End Sha256.

(** ** algo_verite.py *)

(** Decimal [str()] of a Python int. *)
Fixpoint digits_rev (fuel : nat) (n : Z) : list ascii :=
  match fuel with
  | O => []
  | S k =>
      let c := ascii_of_nat (48 + Z.to_nat (n mod 10)) in
      if (n <? 10)%Z then [c] else c :: digits_rev k (n / 10)
  end.

Definition py_str_int (z : Z) : string :=
  let n := Z.abs z in
  let ds := string_of_list_ascii (rev (digits_rev (S (Z.to_nat (Z.log2 n))) n)) in
  if (z <? 0)%Z then "-" ++ ds else ds.

(** [_calculer_ratio_harmonie] *)
Definition calculer_ratio_harmonie (sommet base : Z) : Q :=
  if (base =? 0)%Z then 0
  else
    let ratio := inject_Z (Z.min sommet base) / inject_Z (Z.max sommet base) in
    1 - Qabs (ratio - (618 # 1000)).

Record signatures : Type := mkSignatures {
  signature_racine : string;
  sommet_pyramidal : Z;
  base_fondamentale : Z;
  hash_convergence : string;
  niveaux_total : nat;
  symetrie_score : Q;
  ratio_harmonie : Q
}.

Definition head0 (l : list Z) : Z := hd 0%Z l.

(** [pyramide['superieure'][0][0] if pyramide['superieure'] else pyramide['base'][0]] *)
Definition sommet_of (p : pyramid) : Z :=
  match p_upper p with
  | lvl :: _ => head0 lvl
  | [] => head0 (p_base p)
  end.

(** [pyramide['inferieure'][-1][0] if pyramide['inferieure'] else pyramide['base'][0]] *)
Definition base_of (p : pyramid) : Z :=
  match p_lower p with
  | [] => head0 (p_base p)
  | _ => head0 (last (p_lower p) [])
  end.

(** [nom + ''.join(str(x) for niveau in pyramide['superieure'] for x in niveau)] *)
Definition data_crypto (p : pyramid) (nom : string) : string :=
  nom ++ String.concat EmptyString (map py_str_int (concat (p_upper p))).

(** [f"VERITE-{hash_verite[:16]}"] *)
Definition racine_of (p : pyramid) (nom : string) : string :=
  "VERITE-" ++ substring 0 16 (Sha256.hexdigest (data_crypto p nom)).

(** [_calculer_signatures] *)
Definition calculer_signatures (p : pyramid) (nom : string) : signatures :=
  let sommet := sommet_of p in
  let base := base_of p in
  let convergence_data :=
    py_str_int sommet ++ ":" ++ py_str_int base ++ ":" ++
    py_str_int (head0 (p_base p)) ++ ":" ++ py_str_int (last (p_base p) 0%Z) in
  {| signature_racine := racine_of p nom;
     sommet_pyramidal := sommet;
     base_fondamentale := base;
     hash_convergence := substring 0 16 (Sha256.hexdigest convergence_data);
     niveaux_total := length (p_upper p) + length (p_lower p) + 1;
     symetrie_score := calculer_symetrie p;
     ratio_harmonie := calculer_ratio_harmonie sommet base |}.

(** [if cond: liste.append(s)] *)
Definition ajouter_si (b : bool) (s : string) : list string :=
  if b then [s] else [].

Inductive complexite_niveau := SIMPLE | MODEREE | COMPLEXE | TRES_COMPLEXE.

(** [_evaluer_complexite] *)
Definition evaluer_complexite (p : pyramid) : complexite_niveau :=
  let total_niveaux := (length (p_upper p) + length (p_lower p))%nat in
  if Nat.leb total_niveaux 3%nat then SIMPLE
  else if Nat.leb total_niveaux 6%nat then MODEREE
  else if Nat.leb total_niveaux 9%nat then COMPLEXE
  else TRES_COMPLEXE.

Record patterns_detectes : Type := mkPatterns {
  unite_fondamentale : bool;
  equilibre_parfait : bool;
  croissance_harmonieuse : bool;
  convergence_rapide : bool;
  stabilite_structurelle : bool
}.

(** The result of [_interpreter_pyramide]; [message_essentiel] (a text built
    from the name) is not modelled. *)
Record interpretation : Type := mkInterpretation {
  principes_structurels : list string;
  patterns : patterns_detectes;
  niveau_complexite : complexite_niveau;
  score_harmonie : Q
}.

Section Interpretation.

(** [numpy.std] over a list of integers, as a float. *)
Variable np_std : list Z -> Q.

(** [_evaluer_stabilite] *)
Definition evaluer_stabilite (p : pyramid) : bool :=
  match p_lower p with
  | [] => true
  | _ =>
      let base_finale := last (p_lower p) [] in
      if Nat.eqb (length base_finale) 1 then true
      else negb (Qle_bool 10 (np_std base_finale))
  end.

(** [_calculer_score_harmonie_global] *)
Definition calculer_score_harmonie_global (p : pyramid) : Q :=
  let equilibre :=
    match p_upper p, p_lower p with
    | [], _ | _, [] => []
    | _, _ =>
        let valeurs_sup := concat (p_upper p) in
        let valeurs_inf := concat (p_lower p) in
        match valeurs_sup, valeurs_inf with
        | [], _ | _, [] => []
        | _, _ =>
            let avg_sup := Qmean (map inject_Z valeurs_sup) in
            let avg_inf := Qmean (map inject_Z valeurs_inf) in
            if negb (Qle_bool (Qmax avg_sup avg_inf) 0)
            then [1 - Qabs (avg_sup - avg_inf) / Qmax avg_sup avg_inf]
            else []
        end
    end in
  let scores :=
    ([calculer_symetrie p; if evaluer_stabilite p then 1 else 1 # 2] ++ equilibre)%list in
  match scores with
  | [] => 1 # 2
  | _ => Qmean scores
  end.

(** [_interpreter_pyramide] *)
Definition interpreter_pyramide (p : pyramid) : interpretation :=
  let sommet := sommet_of p in
  let base := base_of p in
  let pt := {| unite_fondamentale := (base =? 1)%Z;
               equilibre_parfait := (sommet =? base)%Z;
               croissance_harmonieuse :=
                 Nat.eqb (length (p_upper p)) (length (p_lower p));
               convergence_rapide := Nat.ltb (length (p_lower p)) 4;
               stabilite_structurelle := evaluer_stabilite p |} in
  let principes :=
    (ajouter_si (unite_fondamentale pt)
       "Unité fondamentale - convergence vers l'essentiel" ++
     ajouter_si (equilibre_parfait pt)
       "Équilibre parfait entre complexité et simplicité" ++
     [if croissance_harmonieuse pt then "Croissance et réduction harmonieuses"
      else "Dynamique asymétrique entre construction et déconstruction"] ++
     [if convergence_rapide pt then "Convergence rapide vers la stabilité"
      else "Convergence progressive nécessitant une exploration approfondie"] ++
     [if stabilite_structurelle pt then "Structure stable et cohérente"
      else "Structure dynamique en évolution"])%list in
  {| principes_structurels := principes;
     patterns := pt;
     niveau_complexite := evaluer_complexite p;
     score_harmonie := calculer_score_harmonie_global p |}.

End Interpretation.

Module AlgoVerite.

(** A Python list object is a location in the heap; the archive stores the
    caller's list object itself ([resultat['sequence_originale'] = sequence]),
    so a later mutation of that list is seen through the archive. *)
Definition loc := nat.

(** An archived analysis.  The fields holding timestamps, the textual
    interpretation and the integrity proofs are derived from the pyramid and
    the clock and are not read back by any modelled operation. *)
Record analyse : Type := mkAnalyse {
  a_nom : string;
  a_sequence : loc;
  a_pyramide : pyramid;
  a_signatures : signatures
}.

Inductive statut := NON_TROUVE | INTEGRE | CORROMPU.

Record operation : Type := mkOperation {
  op_action : string;
  op_nom : string;
  op_detail : string   (** [signature_racine] or [statut] *)
}.

Record state : Type := mkState {
  heap : loc -> list Z;
  archives_analyses : list (string * analyse);
  historique_operations : list operation
}.

(** [d[k] = v] on a Python dict: an existing key keeps its position. *)
Fixpoint dict_set {V : Type} (k : string) (v : V) (d : list (string * V))
  : list (string * V) :=
  match d with
  | [] => [(k, v)]
  | (k', v') :: d' =>
      if String.eqb k k' then (k, v) :: d' else (k', v') :: dict_set k v d'
  end.

(** [analyser_sequence(sequence, nom)] *)
Definition analyser_sequence (l : loc) (nom : string) (st : state)
  : result (analyse * state) :=
  let sequence := heap st l in
  match sequence with
  | [] => Err (ValueError "La séquence ne peut pas être vide")
  | _ =>
      let p := build_pyramid sequence in
      let sg := calculer_signatures p nom in
      let r := {| a_nom := nom; a_sequence := l; a_pyramide := p;
                  a_signatures := sg |} in
      Ok (r, {| heap := heap st;
                archives_analyses := dict_set nom r (archives_analyses st);
                historique_operations :=
                  historique_operations st ++
                  [{| op_action := "ANALYSE"; op_nom := nom;
                      op_detail := signature_racine sg |}] |})
  end.

Record verification : Type := mkVerification {
  v_statut : statut;
  v_signature_originale : string;
  v_signature_actuelle : string;
  v_confiance : option Q   (** absent in the [NON_TROUVE] answer *)
}.

Definition statut_label (s : statut) : string :=
  match s with
  | NON_TROUVE => "NON_TROUVE"
  | INTEGRE => "INTÈGRE"
  | CORROMPU => "CORROMPU"
  end.

(** [verifier_integrite(nom)] *)
Definition verifier_integrite (nom : string) (st : state)
  : result (verification * state) :=
  match assoc nom (archives_analyses st) with
  | None =>
      Ok ({| v_statut := NON_TROUVE; v_signature_originale := EmptyString;
             v_signature_actuelle := EmptyString; v_confiance := None |}, st)
  | Some originale =>
      let* '(nouvelle, st1) := analyser_sequence (a_sequence originale) nom st in
      let so := signature_racine (a_signatures originale) in
      let sa := signature_racine (a_signatures nouvelle) in
      let integrite := String.eqb so sa in
      let s := if integrite then INTEGRE else CORROMPU in
      Ok ({| v_statut := s; v_signature_originale := so;
             v_signature_actuelle := sa;
             v_confiance := Some (if integrite then 1 else 0) |},
          {| heap := heap st1;
             archives_analyses := archives_analyses st1;
             historique_operations :=
               historique_operations st1 ++
               [{| op_action := "VERIFICATION"; op_nom := nom;
                   op_detail := statut_label s |}] |})
  end.

(** The caller mutates its list object: [sequence[i] = v]. *)
Definition set_element (l : loc) (i : nat) (v : Z) (st : state) : result state :=
  let xs := heap st l in
  if Nat.ltb i (length xs) then
    Ok {| heap := fun l' => if Nat.eqb l' l then (firstn i xs ++ [v] ++ skipn (S i) xs)%list
                            else heap st l';
          archives_analyses := archives_analyses st;
          historique_operations := historique_operations st |}
  else Err IndexError.

(** A fresh engine ([AlgoVerite()]) whose caller holds the list objects
    [lists]: location [n] is the [n]-th of them. *)
Definition init (lists : list (list Z)) : state :=
  {| heap := fun l => nth l lists [];
     archives_analyses := [];
     historique_operations := [] |}.

(** The archived [(name, original sequence, original signature)] triples. *)
Definition archived_view (st : state) : list (string * list Z * string) :=
  map (fun kv => (fst kv, heap st (a_sequence (snd kv)),
                  signature_racine (a_signatures (snd kv))))
      (archives_analyses st).

(** The caller empties its list object: [sequence.clear()]. *)
Definition vider_liste (l : loc) (st : state) : state :=
  {| heap := fun l' => if Nat.eqb l' l then [] else heap st l';
     archives_analyses := archives_analyses st;
     historique_operations := historique_operations st |}.

(** [max(xs)] on a list of ints (only called on non-empty lists). *)
Definition py_max (xs : list Z) : Z :=
  match xs with
  | [] => 0%Z
  | x :: t => fold_left Z.max t x
  end.

(** [_calculer_similarite_pyramidale] *)
Definition calculer_similarite_pyramidale (pyramide1 pyramide2 : pyramid) : Q :=
  let base1 := p_base pyramide1 in
  let base2 := p_base pyramide2 in
  let similarite_base :=
    if negb (Nat.eqb (length base1) (length base2)) then 3 # 10
    else
      let differences :=
        fold_right Z.add 0%Z
          (map (fun ab => Z.abs (fst ab - snd ab)) (combine base1 base2)) in
      let max_diff :=
        match base1, base2 with
        | _ :: _, _ :: _ =>
            (Z.max (py_max base1) (py_max base2) * Z.of_nat (length base1))%Z
        | _, _ => 1%Z
        end in
      1 - (if (0 <? max_diff)%Z then inject_Z differences / inject_Z max_diff
           else 0) in
  let u1 := length (p_upper pyramide1) in
  let u2 := length (p_upper pyramide2) in
  let structure_sim :=
    1 - Qabs (Qnat u1 - Qnat u2) / Qnat (Nat.max u1 (Nat.max u2 1)) in
  (similarite_base + structure_sim) / 2.

(** [_determiner_relation] *)
Definition determiner_relation (similarite : Q) : string :=
  if Qle_bool (9 # 10) similarite then "IDENTITÉ STRUCTURELLE"
  else if Qle_bool (7 # 10) similarite then "FORTE AFFINITÉ"
  else if Qle_bool (5 # 10) similarite then "RELATION MODÉRÉE"
  else if Qle_bool (3 # 10) similarite then "FAIBLE CONNEXION"
  else "DISSIMILARITÉ".

(** [_analyser_differences]; the convergence points are [base_of] of each
    pyramid (its bases are non-empty when called from [comparer_sequences]). *)
Definition analyser_differences (pyramide1 pyramide2 : pyramid) : list string :=
  let conv1 := base_of pyramide1 in
  let conv2 := base_of pyramide2 in
  (ajouter_si (negb (Nat.eqb (length (p_base pyramide1)) (length (p_base pyramide2))))
     "Longueur de base différente" ++
   ajouter_si (negb (Nat.eqb (length (p_upper pyramide1)) (length (p_upper pyramide2))))
     "Hauteur pyramidale supérieure différente" ++
   ajouter_si (negb (Nat.eqb (length (p_lower pyramide1)) (length (p_lower pyramide2))))
     "Profondeur pyramidale inférieure différente" ++
   ajouter_si (negb (conv1 =? conv2)%Z)
     ("Points de convergence différents (" ++ py_str_int conv1 ++ " vs " ++
      py_str_int conv2 ++ ")"))%list.

(** The result of [comparer_sequences] (the timestamp is not modelled). *)
Record comparaison : Type := mkComparaison {
  sequences_comparees : list string;
  score_similarite : Q;
  relation : string;
  differences_structurelles : list string
}.

(** [comparer_sequences(seq1, nom1, seq2, nom2)]: two analyses, each archived
    and logged, then the comparison of their pyramids. *)
Definition comparer_sequences (l1 : loc) (nom1 : string) (l2 : loc) (nom2 : string)
  (st : state) : result (comparaison * state) :=
  let* '(analyse1, st1) := analyser_sequence l1 nom1 st in
  let* '(analyse2, st2) := analyser_sequence l2 nom2 st1 in
  let similarite :=
    calculer_similarite_pyramidale (a_pyramide analyse1) (a_pyramide analyse2) in
  Ok ({| sequences_comparees := [nom1; nom2];
         score_similarite := similarite;
         relation := determiner_relation similarite;
         differences_structurelles :=
           analyser_differences (a_pyramide analyse1) (a_pyramide analyse2) |},
      st2).

End AlgoVerite.

(** ** medical_predictions.py: [AlgoVeriteMedical] *)
Module Medical.

(** *** Input: the [patient_data] dict

    A key absent from the dict is [None]. *)
Record profil : Type := mkProfil {
  age : option Z;
  comorbidities : option Z;
  immunity_level : option Q
}.

Definition profil_vide : profil := mkProfil None None None.

Record patient_data : Type := mkPatient {
  pd_id : option string;
  pathologie : option string;
  symptomes : option (list string);
  pd_profil : option profil
}.

Definition get {A : Type} (o : option A) (default : A) : A :=
  match o with Some a => a | None => default end.

(** *** Reference tables ([_initialiser_base_medicale], [_initialiser_protocoles]) *)

Record patho_ref : Type := mkPatho {
  severite_base : Q;
  duree_moyenne : Z;
  resilience_patho : Q;
  symptomes_typiques : list string
}.

Definition pathologies_reference : list (string * patho_ref) := [
  ("GRIPPE", mkPatho (4#10) 7 (8#10) ["FIÈVRE"; "TOUX"; "FATIGUE"; "DOULEURS_MUSCULAIRES"]);
  ("COVID", mkPatho (7#10) 14 (6#10) ["FIÈVRE"; "TOUX"; "DYSPNÉE"; "ANOSMIE"; "FATIGUE"]);
  ("BRONCHITE", mkPatho (5#10) 10 (7#10) ["TOUX"; "EXPECTORATION"; "DYSPNÉE"]);
  ("PNEUMONIE", mkPatho (8#10) 21 (5#10) ["FIÈVRE_ÉLEVÉE"; "TOUX_GRASSE"; "DOULEUR_THORACIQUE"; "DYSPNÉE"]);
  ("MIGRAINE", mkPatho (3#10) 2 (9#10) ["CEPHALÉE"; "PHOTOPHOBIE"; "NAUSÉE"])
].

(** A treatment record as a dict.  [t_nom] is its ['nom'] key: the records of
    ['traitements_reference'] and the default record have no such key. *)
Record traitement_ref : Type := mkTraitement {
  t_nom : option string;
  efficacite : Q;
  delai_action : Z;
  compatibilite : Q;
  t_pathologies : list string
}.

Definition traitements_reference : list (string * traitement_ref) := [
  ("ANTIVIRAL", mkTraitement None (7#10) 2 (8#10) ["GRIPPE"; "COVID"]);
  ("ANTIBIOTIQUE", mkTraitement None (8#10) 3 (7#10) ["BRONCHITE"; "PNEUMONIE"]);
  ("ANTIINFLAMMATOIRE", mkTraitement None (6#10) 1 (9#10) ["GRIPPE"; "COVID"; "BRONCHITE"; "PNEUMONIE"]);
  ("IMMUNOSTIMULANT", mkTraitement None (5#10) 5 (95#100) ["GRIPPE"; "COVID"]);
  ("ANALGESIQUE", mkTraitement None (4#10) 1 (85#100) ["MIGRAINE"; "GRIPPE"]);
  ("BRONCHODILATATEUR", mkTraitement None (7#10) 2 (8#10) ["BRONCHITE"; "PNEUMONIE"])
].

(** [{'efficacite': 0.5, 'delai_action': 5, 'compatibilite': 0.5}] *)
Definition traitement_defaut : traitement_ref := mkTraitement None (5#10) 5 (5#10) [].

Record profil_ref : Type := mkProfilRef {
  resilience_profil : Q;
  reponse_traitement : Q;
  recuperation : Q
}.

Definition profils_patients : list (string * profil_ref) := [
  ("JEUNE", mkProfilRef (9#10) (8#10) (85#100));
  ("ADULTE", mkProfilRef (7#10) (7#10) (7#10));
  ("SENIOR", mkProfilRef (5#10) (6#10) (5#10));
  ("IMMUNODEPRIME", mkProfilRef (3#10) (4#10) (3#10))
].

(** [{'resilience': 0.7, 'reponse_traitement': 0.7, 'recuperation': 0.7}] *)
Definition profil_ref_defaut : profil_ref := mkProfilRef (7#10) (7#10) (7#10).

Record protocole : Type := mkProtocole {
  pr_pathologies : list string;
  pr_traitements : list string
}.

Definition protocoles_traitements : list (string * protocole) := [
  ("PROTOCOLE_STANDARD_GRIPPE", mkProtocole ["GRIPPE"] ["ANTIVIRAL"; "ANTIINFLAMMATOIRE"]);
  ("PROTOCOLE_INTENSIF_COVID", mkProtocole ["COVID"] ["ANTIVIRAL"; "ANTIINFLAMMATOIRE"; "IMMUNOSTIMULANT"]);
  ("PROTOCOLE_BRONCHITE", mkProtocole ["BRONCHITE"] ["ANTIBIOTIQUE"; "BRONCHODILATATEUR"]);
  ("PROTOCOLE_PNEUMONIE", mkProtocole ["PNEUMONIE"] ["ANTIBIOTIQUE"; "ANTIINFLAMMATOIRE"; "BRONCHODILATATEUR"]);
  ("PROTOCOLE_MIGRAINE", mkProtocole ["MIGRAINE"] ["ANALGESIQUE"])
].

(** The table of [_estimer_gravite_symptome]. *)
Definition gravites : list (string * Q) := [
  ("FIÈVRE_LEGERE", 3#10); ("FIÈVRE", 5#10); ("FIÈVRE_ÉLEVÉE", 8#10);
  ("TOUX", 3#10); ("TOUX_GRASSE", 4#10); ("TOUX_SÈCHE", 3#10);
  ("DYSPNÉE", 7#10); ("DYSPNÉE_SEVERE", 9#10);
  ("DOULEURS_MUSCULAIRES", 3#10); ("CEPHALÉE", 4#10);
  ("FATIGUE", 3#10); ("ANOSMIE", 2#10); ("NAUSÉE", 4#10)
].

(** The map [cibles_traitement] of [_evaluer_adequation_symptomes]. *)
Definition cibles_traitement : list (string * list string) := [
  ("ANTIVIRAL", ["FIÈVRE"; "FATIGUE"]);
  ("ANTIBIOTIQUE", ["FIÈVRE_ÉLEVÉE"; "EXPECTORATION_PURULENTE"]);
  ("ANTIINFLAMMATOIRE", ["DOULEURS_MUSCULAIRES"; "CEPHALÉE"; "FIÈVRE"]);
  ("IMMUNOSTIMULANT", ["FATIGUE"]);
  ("ANALGESIQUE", ["CEPHALÉE"; "DOULEURS_MUSCULAIRES"]);
  ("BRONCHODILATATEUR", ["DYSPNÉE"; "TOUX"])
].

(** The map of [_generer_indications_traitement]. *)
Definition indications_table : list (string * list string) := [
  ("ANTIVIRAL", ["Début précoce de la maladie"; "Symptômes viraux typiques"]);
  ("ANTIBIOTIQUE", ["Suspicion d'infection bactérienne"; "Expectoration purulente"]);
  ("ANTIINFLAMMATOIRE", ["Inflammation importante"; "Douleurs musculaires"]);
  ("IMMUNOSTIMULANT", ["Défenses immunitaires basses"; "Récupération lente"]);
  ("ANALGESIQUE", ["Douleurs modérées à sévères"; "Céphalées persistantes"]);
  ("BRONCHODILATATEUR", ["Gêne respiratoire"; "Sibilances"])
].

Inductive etat_sante := CRITIQUE | GRAVE | MODERE | STABLE | EXCELLENT.

(** The [(score, label)] attached to each [EtatSante] member. *)
Definition etat_score (e : etat_sante) : Q :=
  match e with
  | CRITIQUE => 1#10 | GRAVE => 3#10 | MODERE => 6#10
  | STABLE => 8#10 | EXCELLENT => 95#100
  end.

Definition etat_label (e : etat_sante) : string :=
  match e with
  | CRITIQUE => "CRITIQUE" | GRAVE => "GRAVE" | MODERE => "MODÉRÉ"
  | STABLE => "STABLE" | EXCELLENT => "EXCELLENT"
  end.

(** *** Values produced by the analysis *)

Record condition : Type := mkCondition {
  pyramide_sante : pyramid;
  score_gravite : Q;
  potentiel_retablissement : Q;
  resilience_patient : Q;
  harmonie_biologique : Q;
  etat : etat_sante;
  facteurs_aggravants : list string;
  indicateurs_favorables : list string
}.

Record candidat : Type := mkCandidat {
  c_nom : string;
  c_protocole : string;
  c_efficacite_base : Q;
  c_compatibilite : Q;
  c_score_global : Q;
  c_delai : Z;
  c_indications : list string
}.

Record jour_evolution : Type := mkJour {
  jour : Z;
  score_jour : Q;
  etat_jour : string;
  actions_recommandees : list string
}.

(** The prediction dict, without its [date_retablissement_predite] field
    ([datetime.now()] plus the duration). *)
Record prediction : Type := mkPrediction {
  duree_maladie_predite : Z;
  probabilite_succes : Q;
  niveau_confiance : Q;
  facteurs_favorables : list string;
  risques_identifies : list string;
  evolution_predite : list jour_evolution;
  recommandations_specifiques : list string
}.

(** The result dict of [analyser_patient].  Its timestamp and the purely
    textual fields computed from the values below (care plan, prognostic
    factors, follow-up recommendations, warnings) are left out: they raise
    nothing and no modelled operation reads them. *)
Record rapport : Type := mkRapport {
  patient_id : string;
  condition_actuelle : condition;
  traitements_recommandes : list candidat;
  prediction_retablissement : prediction;
  score_confiance_global : Q
}.

Section Analyse.

(** [str.upper] *)
Variable upper : string -> string.
(** [_generer_id_patient]: ["PAT_"] and a hash of the Python [repr] of the
    input; only used when the input has no ['id']. *)
Variable generer_id_patient : patient_data -> string.

(** *** [_valider_donnees_patient] *)
Definition valider_donnees_patient (pd : patient_data) : result unit :=
  match pathologie pd with
  | None => Err (ValueError "Champ requis manquant: pathologie")
  | Some p =>
      match symptomes pd with
      | None => Err (ValueError "Champ requis manquant: symptomes")
      | Some _ =>
          match pd_profil pd with
          | None => Err (ValueError "Champ requis manquant: profil")
          | Some _ =>
              match assoc (upper p) pathologies_reference with
              | None => Err (ValueError ("Pathologie non reconnue: " ++ p))
              | Some _ => Ok tt
              end
          end
      end
  end.

(** *** SequenceCodec *)

Definition estimer_gravite_symptome (s : string) : Q :=
  get (assoc (upper s) gravites) (3#10).

Definition coder_symptomes (syms : list string) : list Z :=
  match syms with
  | [] => [0%Z]
  | _ => map (fun s => py_int (estimer_gravite_symptome s * 100)) syms
  end.

Definition coder_pathologie (p : string) : list Z :=
  let r := get (assoc (upper p) pathologies_reference)
               (mkPatho (5#10) 10 (5#10) []) in
  [py_int (severite_base r * 100); duree_moyenne r; py_int (resilience_patho r * 100)].

Definition determiner_groupe_age (a : Z) : string :=
  if (a <=? 25)%Z then "JEUNE" else if (a <=? 60)%Z then "ADULTE" else "SENIOR".

Definition profil_ref_of (pr : profil) : profil_ref :=
  get (assoc (determiner_groupe_age (get (age pr) 40%Z)) profils_patients) profil_ref_defaut.

Definition coder_profil_patient (pr : profil) : list Z :=
  let ref := profil_ref_of pr in
  [py_int (resilience_profil ref * 100); py_int (reponse_traitement ref * 100);
   py_int (get (immunity_level pr) (7#10) * 100);
   Z.min (get (comorbidities pr) 0 * 20) 100]%Z.

Definition construire_pyramide_sante (s p pr : list Z) : pyramid :=
  build_pyramid (s ++ p ++ pr).

(** *** CompositeScorer *)

Definition comorbidities_factor (pr : profil) : Q :=
  Qmin (inject_Z (get (comorbidities pr) 0%Z) * (1#10)) (3#10).

(** [_calculer_gravite] *)
Definition calculer_gravite (s p : list Z) (pd : patient_data) : Q :=
  match s, p with
  | [], _ | _, [] => 1#2
  | _, p0 :: _ =>
      let severite_symptomes :=
        inject_Z (fold_right Z.add 0%Z s) / (Qnat (length s) * 100) in
      let severite_pathologie := inject_Z p0 / 100 in
      let score_base := (severite_symptomes + severite_pathologie) / 2 in
      let score_final := Qmin (score_base + comorbidities_factor (get (pd_profil pd) profil_vide)) 1 in
      Qmax 0 score_final
  end.

(** [_evaluer_potentiel_retablissement] *)
Definition evaluer_potentiel_retablissement (p : pyramid) : Q :=
  match p_upper p, p_lower p with
  | [], _ | _, [] => 1#2
  | up0 :: _, _ =>
      let sommet := head0 up0 in
      let b := head0 (last (p_lower p) []) in
      let base_risque := if (b =? 0)%Z then 1%Z else b in
      let harmonie :=
        1 - Qmin (inject_Z (Z.abs (sommet - base_risque)) /
                  inject_Z (Z.max sommet base_risque)) 1 in
      let stabilite := 1 - Qnat (length (p_lower p)) / (Qnat (length (p_base p)) * 2) in
      Qmax 0 (Qmin ((harmonie + stabilite) / 2) 1)
  end.

(** [_calculer_resilience]; its symmetry factor is the formula of
    [pyramid_symmetry]. *)
Definition calculer_resilience (prc : list Z) (p : pyramid) (pd : patient_data) : Q :=
  let resilience_base := match prc with [] => 1#2 | x :: _ => inject_Z x / 100 end in
  let symetrie := pyramid_symmetry p in
  let immunite := get (immunity_level (get (pd_profil pd) profil_vide)) (7#10) in
  Qmax 0 (Qmin (resilience_base * (4#10) + symetrie * (3#10) + immunite * (3#10)) 1).

(** [_evaluer_harmonie_biologique] *)
Definition evaluer_harmonie_biologique (p : pyramid) : Q :=
  match p_upper p, p_lower p with
  | [], _ | _, [] => 1#2
  | _, _ =>
      match concat (p_upper p), concat (p_lower p) with
      | [], _ | _, [] => 1#2
      | vs, vi =>
          let ms := Qmean (map inject_Z vs) in
          let mi := Qmean (map inject_Z vi) in
          if Qeq_bool ms 0 || Qeq_bool mi 0 then 1#2
          else Qmax 0 (Qmin (1 - Qabs (ms - mi) / Qmax ms mi) 1)
  end
  end.

Definition symptomes_of (pd : patient_data) : list string := get (symptomes pd) [].
Definition pathologie_of (pd : patient_data) : string := get (pathologie pd) EmptyString.
Definition profil_of (pd : patient_data) : profil := get (pd_profil pd) profil_vide.

(** [_determiner_etat_sante] *)
Definition determiner_etat_sante (p : pyramid) (pd : patient_data) : etat_sante :=
  let g := calculer_gravite (coder_symptomes (symptomes_of pd))
                            (coder_pathologie (pathologie_of pd)) pd in
  let r := calculer_resilience (coder_profil_patient (profil_of pd)) p pd in
  let s := g * (1 - r * (3#10)) in
  if Qle_bool (8#10) s then CRITIQUE
  else if Qle_bool (6#10) s then GRAVE
  else if Qle_bool (4#10) s then MODERE
  else if Qle_bool (2#10) s then STABLE
  else EXCELLENT.

Definition when (b : bool) (s : string) : list string := if b then [s] else [].

(** [_identifier_facteurs_aggravants] *)
Definition identifier_facteurs_aggravants (pd : patient_data) : list string :=
  let pr := profil_of pd in
  let syms := symptomes_of pd in
  (when (3 <=? get (comorbidities pr) 0%Z)%Z "Multiples comorbidités" ++
  when (65 <=? get (age pr) 40%Z)%Z "Âge avancé" ++
  when (Qle_bool (get (immunity_level pr) (7#10)) (4#10)) "Immunodépression" ++
  when (str_in "DYSPNÉE_SEVERE" syms) "Détresse respiratoire sévère" ++
  when (str_in "FIÈVRE_ÉLEVÉE" syms) "Fièvre élevée persistante")%list.

Definition Qgt (a b : Q) : bool := negb (Qle_bool a b).

(** [_identifier_indicateurs_favorables] *)
Definition identifier_indicateurs_favorables (p : pyramid) : list string :=
  (when (Qgt (evaluer_harmonie_biologique p) (8#10)) "Harmonie biologique élevée" ++
  when (Qgt (evaluer_potentiel_retablissement p) (7#10)) "Potentiel de rétablissement élevé" ++
  when (Nat.leb (length (p_lower p)) 3) "Convergence rapide vers la stabilité")%list.

(** [_analyser_condition_patient] *)
Definition analyser_condition_patient (pd : patient_data) : condition :=
  let sc := coder_symptomes (symptomes_of pd) in
  let pc := coder_pathologie (pathologie_of pd) in
  let prc := coder_profil_patient (profil_of pd) in
  let p := construire_pyramide_sante sc pc prc in
  {| pyramide_sante := p;
     score_gravite := calculer_gravite sc pc pd;
     potentiel_retablissement := evaluer_potentiel_retablissement p;
     resilience_patient := calculer_resilience prc p pd;
     harmonie_biologique := evaluer_harmonie_biologique p;
     etat := determiner_etat_sante p pd;
     facteurs_aggravants := identifier_facteurs_aggravants pd;
     indicateurs_favorables := identifier_indicateurs_favorables p |}.

(** *** TreatmentRanker *)

(** [_evaluer_adequation_symptomes(traitement, symptomes)]: its first step
    reads [traitement['nom']]. *)
Definition evaluer_adequation_symptomes (t : traitement_ref) (syms : list string)
  : result Q :=
  match t_nom t with
  | None => Err (KeyError "nom")
  | Some nom =>
      match get (assoc nom cibles_traitement) [] with
      | [] => Ok (1#2)
      | cibles =>
          let correspondances := length (filter (fun s => str_in s cibles) syms) in
          Ok (Qmin (Qnat correspondances / Qnat (length cibles)) 1)
      end
  end.

(** [_calculer_compatibilite_traitement] *)
Definition calculer_compatibilite_traitement (t : traitement_ref) (pr : profil)
  (c : condition) (syms : list string) : result Q :=
  let ref := profil_ref_of pr in
  if Qeq_bool (compatibilite t) 0 then Err ZeroDivisionError
  else
    let resilience_ratio := Qmin (resilience_patient c / compatibilite t) 1 in
    let* adequation := evaluer_adequation_symptomes t syms in
    Ok (Qmean [reponse_traitement ref; harmonie_biologique c; resilience_ratio; adequation]).

(** [score_global] of a candidate *)
Definition score_global (t : traitement_ref) (compat : Q) : Q :=
  efficacite t * (4#10) + compat * (4#10) + (1 - inject_Z (delai_action t) / 10) * (2#10).

Definition generer_indications_traitement (tn : string) (syms : list string) : list string :=
  get (assoc tn indications_table) ["Traitement symptomatique"].

Fixpoint candidats_protocole (pn : string) (tns : list string) (pr : profil)
  (c : condition) (syms : list string) : result (list candidat) :=
  match tns with
  | [] => Ok []
  | tn :: tns' =>
      let t := get (assoc tn traitements_reference) traitement_defaut in
      let* compat := calculer_compatibilite_traitement t pr c syms in
      let cand := {| c_nom := tn; c_protocole := pn; c_efficacite_base := efficacite t;
                     c_compatibilite := compat; c_score_global := score_global t compat;
                     c_delai := delai_action t;
                     c_indications := generer_indications_traitement tn syms |} in
      let* rest := candidats_protocole pn tns' pr c syms in
      Ok (cand :: rest)
  end.

Fixpoint candidats (pathologie : string) (prots : list (string * protocole))
  (pr : profil) (c : condition) (syms : list string) : result (list candidat) :=
  match prots with
  | [] => Ok []
  | (pn, prot) :: prots' =>
      let* here :=
        if str_in pathologie (pr_pathologies prot)
        then candidats_protocole pn (pr_traitements prot) pr c syms
        else Ok [] in
      let* rest := candidats pathologie prots' pr c syms in
      Ok (here ++ rest)%list
  end.

(** [list.sort(key=score_global, reverse=True)]: stable, descending. *)
Fixpoint insert_desc (x : candidat) (l : list candidat) : list candidat :=
  match l with
  | [] => [x]
  | y :: l' =>
      if Qgt (c_score_global x) (c_score_global y) then x :: l
      else y :: insert_desc x l'
  end.

Definition sort_desc (l : list candidat) : list candidat :=
  fold_left (fun acc x => insert_desc x acc) l [].

(** [_rechercher_traitements_optimaux] *)
Definition rechercher_traitements_optimaux (pd : patient_data) (c : condition)
  : result (list candidat) :=
  let* cs := candidats (upper (pathologie_of pd)) protocoles_traitements
                       (profil_of pd) c (symptomes_of pd) in
  Ok (firstn 3 (sort_desc cs)).

(** *** PredictionEngine *)

Definition ajustement_resilience (resilience : Q) : Q := (1 - resilience) * (3#10).
Definition ajustement_traitement (efficacite_traitement : Q) : Q :=
  (1 - efficacite_traitement) * (4#10).
Definition ajustement_age (pr : profil) : Q :=
  if (65 <=? get (age pr) 40%Z)%Z then 2#10 else 0.

(** [_predire_duree_maladie] *)
Definition predire_duree_maladie (p : string) (gravite resilience efficacite_traitement : Q)
  (pr : profil) : Z :=
  let duree_base := get (option_map duree_moyenne (assoc (upper p) pathologies_reference)) 10%Z in
  let duree_ajustee :=
    inject_Z duree_base *
      (1 + gravite * (1#2) - ajustement_resilience resilience
         - ajustement_traitement efficacite_traitement
         + ajustement_age pr + comorbidities_factor pr) in
  Z.max 1 (py_int duree_ajustee).

(** [_calculer_probabilite_succes] *)
Definition calculer_probabilite_succes (c : condition) (t : candidat) (pr : profil) : Q :=
  let p0 := Qmean [potentiel_retablissement c; c_score_global t; resilience_patient c;
                   harmonie_biologique c; recuperation (profil_ref_of pr)] in
  let p1 := if Qgt (score_gravite c) (8#10) then p0 * (8#10)
            else if Qgt (3#10) (score_gravite c) then p0 * (11#10)
            else p0 in
  let p2 := if (2 <=? get (comorbidities pr) 0%Z)%Z then p1 * (9#10) else p1 in
  Qmin (Qmax p2 0) 1.

(** [_evaluer_stabilite_structurelle]: [len(set(base_finale)) <= 2] *)
Definition evaluer_stabilite_structurelle (p : pyramid) : bool :=
  match p_lower p with
  | [] => true
  | _ => Nat.leb (length (nodup Z.eq_dec (last (p_lower p) []))) 2
  end.

Definition max_score (ts : list candidat) : Q :=
  match ts with
  | [] => 0
  | t :: ts' => fold_left (fun m x => Qmax m (c_score_global x)) ts' (c_score_global t)
  end.

Definition stabilite_facteur (p : pyramid) : Q :=
  if evaluer_stabilite_structurelle p then 1 else 7#10.

(** [_calculer_confiance_prediction] *)
Definition calculer_confiance_prediction (c : condition) (ts : list candidat) : Q :=
  Qmean [harmonie_biologique c;
         match ts with [] => 3#10 | _ => max_score ts end;
         1 - score_gravite c * (3#10);
         stabilite_facteur (pyramide_sante c)].

(** [_determiner_etat_from_score] *)
Definition determiner_etat_from_score (s : Q) : string :=
  if Qle_bool (8#10) s then "CRITIQUE"
  else if Qle_bool (6#10) s then "GRAVE"
  else if Qle_bool (4#10) s then "MODÉRÉ"
  else if Qle_bool (2#10) s then "STABLE"
  else "BON".

(** [_generer_actions_jour] *)
Definition generer_actions_jour (j : Z) (e : string) (s : Q) : list string :=
  (["Surveillance des symptômes"; "Hydratation adéquate"] ++
  (if (j =? 0)%Z then ["Début du traitement"; "Repos strict"]
   else if str_in e ["CRITIQUE"; "GRAVE"]
   then ["Surveillance médicale rapprochée"; "Contrôle des paramètres vitaux"]
   else if String.eqb e "MODÉRÉ" then ["Repos relatif"; "Adaptation des activités"]
   else if Qgt (3#10) s then ["Reprise progressive des activités"; "Réadaptation"]
   else []) ++
  when (j mod 3 =? 0)%Z "Évaluation de l'évolution")%list.

(** [_predire_evolution] *)
Definition predire_evolution (c : condition) (duree : Z) : list jour_evolution :=
  map (fun n =>
         let j := Z.of_nat n in
         let s := if (j =? 0)%Z then score_gravite c
                  else Qmax 0 (score_gravite c * (9#10) ^ j
                               - resilience_patient c * (15#100) * inject_Z j) in
         let e := determiner_etat_from_score s in
         {| jour := j; score_jour := Qmax 0 (Qmin s 1); etat_jour := e;
            actions_recommandees := generer_actions_jour j e s |})
      (seq 0 (S (Z.to_nat duree))).

(** [_prediction_defaut] *)
Definition prediction_defaut : prediction :=
  {| duree_maladie_predite := 14; probabilite_succes := 1#2; niveau_confiance := 3#10;
     facteurs_favorables := ["Données insuffisantes pour une analyse précise"];
     risques_identifies := ["Traitement non spécifique recommandé"];
     evolution_predite := [];
     recommandations_specifiques :=
       ["Consultation médicale recommandée pour affiner le diagnostic"] |}.

(** [_identifier_facteurs_favorables] *)
Definition identifier_facteurs_favorables (c : condition) : list string :=
  let fs := (when (Qgt (resilience_patient c) (7#10)) "Forte résilience du patient" ++
            when (Qgt (harmonie_biologique c) (8#10)) "Harmonie biologique élevée" ++
            when (Qgt (potentiel_retablissement c) (7#10)) "Potentiel de rétablissement élevé" ++
            when (Qgt (4#10) (score_gravite c)) "Gravité modérée de la condition")%list in
  match fs with [] => ["Analyse en cours - facteurs à déterminer"] | _ => fs end.

(** [_identifier_risques] *)
Definition identifier_risques (c : condition) (pr : profil) : list string :=
  let rs := (when (Qgt (score_gravite c) (7#10)) "Condition médicale sévère" ++
            when (Qgt (4#10) (resilience_patient c)) "Faible résilience du patient" ++
            when (Qgt (1#2) (harmonie_biologique c)) "Déséquilibre biologique détecté" ++
            when (2 <? get (comorbidities pr) 0%Z)%Z "Multiples comorbidités" ++
            when (65 <=? get (age pr) 40%Z)%Z "Âge avancé (facteur de risque)")%list in
  match rs with [] => ["Risques modérés - surveillance standard recommandée"] | _ => rs end.

(** [_generer_recommandations_specifiques] *)
Definition generer_recommandations_specifiques (c : condition) (ps : Q) : list string :=
  (when (Qgt (1#2) (resilience_patient c)) "Renforcement du système immunitaire recommandé" ++
  when (Qgt (6#10) (harmonie_biologique c))
       "Approche holistique pour rétablir l'équilibre biologique" ++
  (if Qgt (6#10) ps then ["Plan de contingence à prévoir"; "Surveillance renforcée nécessaire"]
   else []) ++
  (match etat c with
   | CRITIQUE | GRAVE => ["Prise en charge médicale spécialisée recommandée"]
   | _ => []
   end))%list.

(** [_predire_retablissement] *)
Definition predire_retablissement (pd : patient_data) (c : condition) (ts : list candidat)
  : prediction :=
  match ts with
  | [] => prediction_defaut
  | best :: _ =>
      let pr := profil_of pd in
      let duree := predire_duree_maladie (pathologie_of pd) (score_gravite c)
                     (resilience_patient c) (c_score_global best) pr in
      let ps := calculer_probabilite_succes c best pr in
      {| duree_maladie_predite := duree;
         probabilite_succes := ps;
         niveau_confiance := calculer_confiance_prediction c ts;
         facteurs_favorables := identifier_facteurs_favorables c;
         risques_identifies := identifier_risques c pr;
         evolution_predite := predire_evolution c duree;
         recommandations_specifiques := generer_recommandations_specifiques c ps |}
  end.

(** [_calculer_confiance_globale] *)
Definition calculer_confiance_globale (c : condition) (pred : prediction)
  (ts : list candidat) : Q :=
  Qmean [harmonie_biologique c;
         match ts with [] => 3#10 | _ => max_score ts end;
         niveau_confiance pred;
         stabilite_facteur (pyramide_sante c);
         1 - Qabs (potentiel_retablissement c - probabilite_succes pred)].

(** *** [analyser_patient] (the entry point) *)
Definition analyser_patient (pd : patient_data) : result rapport :=
  let* _ := valider_donnees_patient pd in
  let c := analyser_condition_patient pd in
  let* ts := rechercher_traitements_optimaux pd c in
  let pred := predire_retablissement pd c ts in
  Ok {| patient_id := get (pd_id pd) (generer_id_patient pd);
        condition_actuelle := c;
        traitements_recommandes := ts;
        prediction_retablissement := pred;
        score_confiance_global := calculer_confiance_globale c pred ts |}.

(** *** [analyser_cohorte] *)

(** An entry of ['analyses_detaillees']: a result dict, or the error dict
    [{'patient_id': ..., 'erreur': str(e), 'statut': 'ÉCHEC_ANALYSE'}]. *)
Inductive entree : Type :=
| Reussie (r : rapport)
| Echec (pid : string) (erreur : string).

(** The strings of [_generer_recommandations_cohorte]; the first one embeds
    a treatment name and its mean score. *)
Inductive recommandation : Type :=
| DonneesInsuffisantes
| TraitementLePlusEfficace (nom : string) (score_moyen : Q)
| CohorteHautRisque
| CohorteFaibleRisque.

Record cohorte : Type := mkCohorte {
  total_patients : nat;
  analyses_reussies : nat;
  taux_reussite : Q;
  duree_maladie_moyenne : Q;
  probabilite_succes_moyenne : Q;
  confiance_moyenne : Q;
  analyses_detaillees : list entree;
  recommandations_cohorte : list recommandation
}.

Definition analyser_entree (pd : patient_data) : entree :=
  match analyser_patient pd with
  | Ok r => Reussie r
  | Err e => Echec (get (pd_id pd) "INCONNU") (py_str_exn e)
  end.

Definition reussies (es : list entree) : list rapport :=
  flat_map (fun e => match e with Reussie r => [r] | Echec _ _ => [] end) es.

(** [traitements_scores]: name -> scores, keys in first-insertion order. *)
Fixpoint ajouter_score (nom : string) (s : Q) (d : list (string * list Q))
  : list (string * list Q) :=
  match d with
  | [] => [(nom, [s])]
  | (k, ss) :: d' =>
      if String.eqb nom k then (k, (ss ++ [s])%list) :: d' else (k, ss) :: ajouter_score nom s d'
  end.

(** [max(items, key=mean)]: the first item of maximal mean. *)
Definition meilleur (d : list (string * list Q)) : option (string * list Q) :=
  match d with
  | [] => None
  | x :: d' =>
      Some (fold_left (fun m y => if Qgt (Qmean (snd y)) (Qmean (snd m)) then y else m) d' x)
  end.

(** [_generer_recommandations_cohorte] *)
Definition generer_recommandations_cohorte (rs : list rapport) : list recommandation :=
  match rs with
  | [] => [DonneesInsuffisantes]
  | _ =>
      let d := fold_left (fun d r =>
                 fold_left (fun d t => ajouter_score (c_nom t) (c_score_global t) d)
                           (traitements_recommandes r) d) rs [] in
      let g := Qmean (map (fun r => score_gravite (condition_actuelle r)) rs) in
      ((match meilleur d with
        | Some (n, ss) => [TraitementLePlusEfficace n (Qmean ss)]
        | None => []
        end) ++
       (if Qgt g (7#10) then [CohorteHautRisque]
        else if Qgt (3#10) g then [CohorteFaibleRisque] else []))%list
  end.

Definition analyser_cohorte (ps : list patient_data) : result cohorte :=
  let analyses := map analyser_entree ps in
  let ok := reussies analyses in
  let moy (f : rapport -> Q) := match ok with [] => 0 | _ => Qmean (map f ok) end in
  let durees := moy (fun r => inject_Z (duree_maladie_predite (prediction_retablissement r))) in
  let succes := moy (fun r => probabilite_succes (prediction_retablissement r)) in
  let confiance := moy (fun r => niveau_confiance (prediction_retablissement r)) in
  match length ps with
  | O => Err ZeroDivisionError
  | n =>
      Ok {| total_patients := n;
            analyses_reussies := length ok;
            taux_reussite := Qnat (length ok) / Qnat n;
            duree_maladie_moyenne := durees;
            probabilite_succes_moyenne := succes;
            confiance_moyenne := confiance;
            analyses_detaillees := analyses;
            recommandations_cohorte := generer_recommandations_cohorte ok |}
  end.

End Analyse.

End Medical.

(** ** Concrete instances and spec-side formulas *)

(** [str.upper] on ASCII letters; it agrees with Python's [str.upper] on the
    concrete inputs below, whose letters are ASCII or already upper case. *)
Definition ascii_upper (s : string) : string :=
  string_of_list_ascii
    (map (fun a => let n := nat_of_ascii a in
                   if (97 <=? n)%nat && (n <=? 122)%nat then ascii_of_nat (n - 32) else a)
         (list_ascii_of_string s)).

(** The duration formula as the spec of claim C1 words it:
    [max(1, round(base * (1 + 0.5 sev - 0.3 res - 0.4 best + senior + comorb)))]. *)
Definition duree_selon_spec (base : Z) (sev res best : Q) (age c : Z) : Z :=
  Z.max 1 (py_round (inject_Z base *
     (1 + (1#2) * sev - (3#10) * res - (4#10) * best
        + (if (65 <=? age)%Z then 2#10 else 0)
        + Qmin ((1#10) * inject_Z c) (3#10)))).

(** The overlap ratio as the spec of claim C6 words it: the fraction of the
    patient's symptoms that appear in the target list, capped at 1. *)
Definition fraction_symptomes_patient (cibles syms : list string) : Q :=
  Qmin (Qnat (length (filter (fun s => str_in s cibles) syms)) / Qnat (length syms)) 1.

Definition in01 (q : Q) : Prop := (0 <= q /\ q <= 1)%Q.



(** * Proofs *)

(** ** Pyramid structure *)

Lemma next_sum_length : forall l, length (next_sum l) = pred (length l).
Proof.
  induction l as [|x t IH]; [reflexivity|].
  destruct t as [|y t']; [reflexivity|].
  change (S (length (next_sum (y :: t'))) = pred (length (x :: y :: t'))).
  rewrite IH. reflexivity.
Qed.

Lemma next_absdiff_length : forall l, length (next_absdiff l) = pred (length l).
Proof.
  induction l as [|x t IH]; [reflexivity|].
  destruct t as [|y t']; [reflexivity|].
  change (S (length (next_absdiff (y :: t'))) = pred (length (x :: y :: t'))).
  rewrite IH. reflexivity.
Qed.

Section Levels.

Variable step : list Z -> list Z.
Hypothesis step_length : forall l, length (step l) = pred (length l).

(** With enough fuel, a base of length [n] gives levels of lengths
    [n-1, n-2, ..., 1], in the order they are produced. *)
Lemma reduce_levels_length : forall fuel cur,
  (pred (length cur) <= fuel)%nat ->
  map (@length Z) (reduce_levels step fuel cur) = rev (seq 1 (pred (length cur))).
Proof.
  induction fuel as [|k IH]; intros cur Hf; simpl.
  - replace (pred (length cur)) with 0%nat by lia. reflexivity.
  - destruct (Nat.ltb_spec 1 (length cur)) as [Hlt|Hge].
    + simpl. rewrite IH by (rewrite step_length; lia).
      rewrite step_length.
      replace (pred (length cur)) with (S (pred (pred (length cur)))) by lia.
      rewrite seq_S, rev_app_distr. simpl.
      f_equal; try lia.
    + replace (pred (length cur)) with 0%nat by lia. reflexivity.
Qed.

End Levels.

Lemma last_rev_seq : forall m, (1 <= m)%nat -> last (rev (seq 1 m)) 0%nat = 1%nat.
Proof.
  intros [|m] Hm; [lia|]. simpl. apply last_last.
Qed.

Lemma last_map_length : forall (L : list (list Z)),
  length (last L []) = last (map (@length Z) L) 0%nat.
Proof.
  induction L as [|a [|b L'] IH]; [reflexivity | reflexivity |].
  simpl in *. exact IH.
Qed.

Lemma build_pyramid_lower_lengths : forall base,
  map (@length Z) (p_lower (build_pyramid base)) = rev (seq 1 (pred (length base))).
Proof.
  intros base. apply reduce_levels_length; [apply next_absdiff_length | lia].
Qed.

Lemma build_pyramid_upper_lengths : forall base,
  map (@length Z) (rev (p_upper (build_pyramid base))) = rev (seq 1 (pred (length base))).
Proof.
  intros base. simpl. rewrite rev_involutive.
  apply reduce_levels_length; [apply next_sum_length | lia].
Qed.

Lemma length_from_map : forall (L : list (list Z)) n,
  map (@length Z) L = rev (seq 1 n) -> length L = n.
Proof.
  intros L n H. rewrite <- (length_map (@length Z) L), H, length_rev, length_seq.
  reflexivity.
Qed.

(** C2: both branches have [n-1] levels; in the order they are produced each
    level is one element shorter than the previous and the last one is a
    single element (the ascending branch is stored apex first, i.e. in the
    reverse order); the symmetry score of [_calculate_pyramid_metrics], and
    the identical factor of [_calculer_resilience], is 1. *)
Theorem pyramid_levels_and_symmetry : forall (np_std : list Z -> Q) (base : list Z),
  let p := build_pyramid base in
  let n := length base in
  length (p_upper p) = pred n /\
  length (p_lower p) = pred n /\
  map (@length Z) (p_lower p) = rev (seq 1 (pred n)) /\
  map (@length Z) (rev (p_upper p)) = rev (seq 1 (pred n)) /\
  (symmetry_score (calculate_pyramid_metrics np_std p) == 1)%Q.
Proof.
  intros np_std base. cbv zeta.
  assert (Hl := build_pyramid_lower_lengths base).
  assert (Hu := build_pyramid_upper_lengths base).
  assert (Hlen_l := length_from_map _ _ Hl).
  assert (Hlen_u := length_from_map _ _ Hu). rewrite length_rev in Hlen_u.
  split; [exact Hlen_u|]. split; [exact Hlen_l|].
  split; [exact Hl|]. split; [exact Hu|].
  unfold calculate_pyramid_metrics, pyramid_symmetry. cbn [symmetry_score].
  rewrite Hlen_u, Hlen_l. unfold Qminus.
  setoid_rewrite Qplus_opp_r. change (Qabs 0) with 0%Q.
  unfold Qdiv. rewrite Qmult_0_l. ring.
Qed.

(** C9: the stability score is 1 for every base: the descending branch is
    empty or ends with a one-element level. *)
Theorem pyramid_stability_one : forall (np_std : list Z -> Q) (base : list Z),
  calculate_stability np_std (build_pyramid base) = 1%Q.
Proof.
  intros np_std base. unfold calculate_stability.
  assert (Hl := build_pyramid_lower_lengths base).
  destruct (p_lower (build_pyramid base)) as [|lv rest] eqn:E; [reflexivity|].
  rewrite last_map_length, Hl.
  assert (Hn : (1 <= pred (length base))%nat).
  { destruct (pred (length base)) eqn:Hp; [|lia].
    simpl in Hl. discriminate Hl. }
  rewrite last_rev_seq by exact Hn. reflexivity.
Qed.

(** ** The integrity verifier *)

Module AlgoVeriteProofs.
Import AlgoVerite.

Lemma assoc_dict_set : forall {V : Type} k (v : V) d, assoc k (dict_set k v d) = Some v.
Proof.
  intros V k v d. induction d as [|[k' v'] d IH]; simpl.
  - rewrite String.eqb_refl. reflexivity.
  - destruct (String.eqb k k') eqn:E; simpl.
    + rewrite String.eqb_refl. reflexivity.
    + rewrite E. exact IH.
Qed.

Definition analyse_of (l : loc) (nom : string) (xs : list Z) : analyse :=
  {| a_nom := nom; a_sequence := l; a_pyramide := build_pyramid xs;
     a_signatures := calculer_signatures (build_pyramid xs) nom |}.

Lemma analyser_sequence_inv : forall l nom st r st',
  analyser_sequence l nom st = Ok (r, st') ->
  heap st l <> [] /\ r = analyse_of l nom (heap st l) /\ heap st' = heap st /\
  archives_analyses st' = dict_set nom r (archives_analyses st).
Proof.
  intros l nom st r st' H. unfold analyser_sequence in H.
  destruct (heap st l) as [|x xs] eqn:E; [discriminate H|].
  injection H as <- <-. split; [discriminate|].
  split; [reflexivity|].
  split; reflexivity.
Qed.

Lemma analyser_sequence_nonempty : forall l nom st,
  heap st l <> [] ->
  exists st', analyser_sequence l nom st = Ok (analyse_of l nom (heap st l), st') /\
              heap st' = heap st /\
              archives_analyses st' =
                dict_set nom (analyse_of l nom (heap st l)) (archives_analyses st).
Proof.
  intros l nom st H. unfold analyser_sequence.
  destruct (heap st l) as [|x xs] eqn:E; [contradiction|].
  eexists. split; [|split]; reflexivity.
Qed.

(** Replaying an archived entry whose list is non-empty: the verifier compares
    the archived root signature with the one recomputed from the current
    content of the archived list. *)
Lemma verifier_integrite_replay : forall nom st r,
  assoc nom (archives_analyses st) = Some r ->
  heap st (a_sequence r) <> [] ->
  exists v st',
    verifier_integrite nom st = Ok (v, st') /\
    v_signature_originale v = signature_racine (a_signatures r) /\
    v_signature_actuelle v = racine_of (build_pyramid (heap st (a_sequence r))) nom /\
    heap st' = heap st /\
    archives_analyses st' =
      dict_set nom (analyse_of (a_sequence r) nom (heap st (a_sequence r)))
               (archives_analyses st) /\
    (if String.eqb (signature_racine (a_signatures r))
                   (racine_of (build_pyramid (heap st (a_sequence r))) nom)
     then v_statut v = INTEGRE /\ v_confiance v = Some 1%Q
     else v_statut v = CORROMPU /\ v_confiance v = Some 0%Q).
Proof.
  intros nom st r Ha Hne. unfold verifier_integrite. rewrite Ha.
  destruct (analyser_sequence_nonempty (a_sequence r) nom st Hne) as (st1 & E & Hh & Har).
  rewrite E. cbn [bind].
  eexists _, _. split; [reflexivity|]. cbn.
  split; [reflexivity|]. split; [reflexivity|]. split; [exact Hh|]. split; [exact Har|].
  destruct (String.eqb _ _); split; reflexivity.
Qed.

Lemma set_element_inv : forall l i x st st',
  set_element l i x st = Ok st' ->
  archives_analyses st' = archives_analyses st /\
  heap st' l = (firstn i (heap st l) ++ [x] ++ skipn (S i) (heap st l))%list.
Proof.
  intros l i x st st' H. unfold set_element in H.
  destruct (Nat.ltb i (length (heap st l))); [|discriminate H].
  injection H as <-. simpl. rewrite Nat.eqb_refl. split; reflexivity.
Qed.

Lemma racine_singleton : forall nom x y,
  racine_of (build_pyramid [x]) nom = racine_of (build_pyramid [y]) nom.
Proof. reflexivity. Qed.

(** C4 (amended): analysing a named sequence twice gives the same root
    signature; replaying the untouched archive is reported INTACT with
    confidence 1; after one element of the archived list is changed the
    verifier reports CORRUPTED with confidence 0 exactly when the recomputed
    root signature differs from the archived one, and INTACT with confidence
    1 otherwise; for a one-element sequence the root signature does not
    depend on the element, so a change is always reported INTACT. *)
Theorem integrite_rejeu : forall (st : state) (l : loc) (nom : string)
  (r1 : analyse) (st1 : state),
  analyser_sequence l nom st = Ok (r1, st1) ->
  signature_racine (a_signatures r1) = racine_of (build_pyramid (heap st l)) nom /\
  (exists r2 st2, analyser_sequence l nom st1 = Ok (r2, st2) /\
     signature_racine (a_signatures r2) = signature_racine (a_signatures r1)) /\
  (exists v st2, verifier_integrite nom st1 = Ok (v, st2) /\
     v_statut v = INTEGRE /\ v_confiance v = Some 1%Q) /\
  (forall i x st2, set_element l i x st1 = Ok st2 ->
     exists v st3, verifier_integrite nom st2 = Ok (v, st3) /\
       (if String.eqb (signature_racine (a_signatures r1))
                      (racine_of (build_pyramid (heap st2 l)) nom)
        then v_statut v = INTEGRE /\ v_confiance v = Some 1%Q
        else v_statut v = CORROMPU /\ v_confiance v = Some 0%Q)) /\
  (forall x0 x st2, heap st l = [x0] -> set_element l 0 x st1 = Ok st2 ->
     exists v st3, verifier_integrite nom st2 = Ok (v, st3) /\
       v_statut v = INTEGRE /\ v_confiance v = Some 1%Q).
Proof.
  intros st l nom r1 st1 H.
  destruct (analyser_sequence_inv _ _ _ _ _ H) as (Hne & -> & Hh & Har).
  assert (Ha1 : assoc nom (archives_analyses st1) = Some (analyse_of l nom (heap st l)))
    by (rewrite Har; apply assoc_dict_set).
  assert (Hne1 : heap st1 l <> []) by (rewrite Hh; exact Hne).
  split; [reflexivity|].
  split.
  { destruct (analyser_sequence_nonempty l nom st1 Hne1) as (st2 & E & _).
    exists (analyse_of l nom (heap st1 l)), st2. split; [exact E|].
    rewrite Hh. reflexivity. }
  split.
  { destruct (verifier_integrite_replay nom st1 _ Ha1 Hne1) as (v & st2 & E & _ & _ & _ & _ & Hs).
    exists v, st2. split; [exact E|]. cbn [a_sequence] in Hs. rewrite Hh in Hs.
    cbn in Hs. rewrite String.eqb_refl in Hs. exact Hs. }
  assert (Hset : forall i x st2, set_element l i x st1 = Ok st2 ->
     exists v st3, verifier_integrite nom st2 = Ok (v, st3) /\
       (if String.eqb (signature_racine (a_signatures (analyse_of l nom (heap st l))))
                      (racine_of (build_pyramid (heap st2 l)) nom)
        then v_statut v = INTEGRE /\ v_confiance v = Some 1%Q
        else v_statut v = CORROMPU /\ v_confiance v = Some 0%Q)).
  { intros i x st2 Hs.
    assert (Hlt : Nat.ltb i (length (heap st1 l)) = true).
    { unfold set_element in Hs. destruct (Nat.ltb i _); [reflexivity | discriminate Hs]. }
    apply Nat.ltb_lt in Hlt.
    destruct (set_element_inv _ _ _ _ _ Hs) as (Har2 & Hh2).
    assert (Ha2 : assoc nom (archives_analyses st2) = Some (analyse_of l nom (heap st l)))
      by (rewrite Har2; exact Ha1).
    assert (Hne2 : heap st2 l <> []).
    { rewrite Hh2. destruct (firstn i (heap st1 l)); discriminate. }
    destruct (verifier_integrite_replay nom st2 _ Ha2 Hne2) as (v & st3 & E & _ & _ & _ & _ & Hs3).
    exists v, st3. split; [exact E | exact Hs3]. }
  split; [exact Hset|].
  intros x0 x st2 H0 Hs.
  destruct (Hset 0%nat x st2 Hs) as (v & st3 & E & Hv).
  exists v, st3. split; [exact E|].
  destruct (set_element_inv _ _ _ _ _ Hs) as (_ & Hh2).
  rewrite Hh2, Hh, H0 in Hv. cbn [firstn skipn app] in Hv.
  cbn [analyse_of a_signatures calculer_signatures signature_racine] in Hv.
  rewrite (racine_singleton nom x x0), String.eqb_refl in Hv. exact Hv.
Qed.

(** Witness of C4: the hypothesis of [integrite_rejeu] holds for the list
    [[1; 2; 3]] analysed under the name "s", and the untouched replay is INTACT. *)
Lemma integrite_rejeu_witness :
  exists r1 st1,
    analyser_sequence 0%nat "s" (init [[1; 2; 3]%Z]) = Ok (r1, st1) /\
    exists v st2, verifier_integrite "s" st1 = Ok (v, st2) /\
      v_statut v = INTEGRE /\ v_confiance v = Some 1%Q.
Proof.
  destruct (analyser_sequence 0%nat "s" (init [[1; 2; 3]%Z])) as [[r1 st1]|e] eqn:E.
  - exists r1, st1. split; [reflexivity|].
    exact (proj1 (proj2 (proj2 (integrite_rejeu _ _ _ _ _ E)))).
  - vm_compute in E. discriminate E.
Defined.

(** Counterexample to C4 as stated: the one-element list [[5]] is analysed
    under the name "s", its element is then changed to 6 in place, and the
    verifier still reports INTACT with confidence 1. *)
Lemma integrite_rejeu_counterexample :
  match analyser_sequence 0%nat "s" (init [[5]%Z]) with
  | Ok (_, st1) =>
      match set_element 0%nat 0%nat 6%Z st1 with
      | Ok st2 =>
          match verifier_integrite "s" st2 with
          | Ok (v, _) => heap st2 0%nat <> heap st1 0%nat /\
                         v_statut v = INTEGRE /\ v_confiance v = Some 1%Q
          | Err _ => False
          end
      | Err _ => False
      end
  | Err _ => False
  end.
Proof.
  vm_compute. split; [discriminate|]. split; reflexivity.
Qed.

(** C5 (the verifier rewrites the archive): the list [[1; 2; 3]] is analysed
    under the name "s", its first element is changed to 9 in place; the
    verifier reports CORRUPTED but replaces the archived entry, so that the
    archived (name, sequence, signature) triples differ before and after the
    verification, and a second verification reports INTACT. *)
Theorem verifier_integrite_reecrit_archive :
  match analyser_sequence 0%nat "s" (init [[1; 2; 3]%Z]) with
  | Ok (_, st1) =>
      match set_element 0%nat 0%nat 9%Z st1 with
      | Ok st2 =>
          match verifier_integrite "s" st2 with
          | Ok (v, st3) =>
              v_statut v = CORROMPU /\
              archived_view st2 = [("s", [9; 2; 3]%Z, "VERITE-8a6cc25e6ff8c25d")] /\
              archived_view st3 = [("s", [9; 2; 3]%Z, "VERITE-904d29f617d46b47")] /\
              match verifier_integrite "s" st3 with
              | Ok (v', _) => v_statut v' = INTEGRE
              | Err _ => False
              end
          | Err _ => False
          end
      | Err _ => False
      end
  | Err _ => False
  end.
Proof.
  vm_compute. repeat split.
Qed.

End AlgoVeriteProofs.

(** ** The patient analysis *)

Module MedicalProofs.
Import Medical.

Lemma assoc_pathologies : forall k,
  assoc k pathologies_reference <> None ->
  k = "GRIPPE" \/ k = "COVID" \/ k = "BRONCHITE" \/ k = "PNEUMONIE" \/ k = "MIGRAINE".
Proof.
  intros k. unfold pathologies_reference. cbn [assoc].
  destruct (String.eqb_spec k "GRIPPE"); [auto|].
  destruct (String.eqb_spec k "COVID"); [auto|].
  destruct (String.eqb_spec k "BRONCHITE"); [auto|].
  destruct (String.eqb_spec k "PNEUMONIE"); [auto|].
  destruct (String.eqb_spec k "MIGRAINE"); [auto|].
  intros H. exfalso. apply H. reflexivity.
Qed.

(** Every recognised pathology has a protocol whose first treatment is read
    from ['traitements_reference'], a record without a ['nom'] key: the ranker
    raises [KeyError('nom')] whatever the condition. *)
Lemma ranker_keyerror : forall upper pd c,
  assoc (upper (pathologie_of pd)) pathologies_reference <> None ->
  rechercher_traitements_optimaux upper pd c = Err (KeyError "nom").
Proof.
  intros upper pd c H. unfold rechercher_traitements_optimaux.
  destruct (assoc_pathologies _ H) as [E|[E|[E|[E|E]]]]; rewrite E; reflexivity.
Qed.

Lemma valid_keyerror : forall upper gid pd p,
  pathologie pd = Some p -> symptomes pd <> None -> pd_profil pd <> None ->
  assoc (upper p) pathologies_reference <> None ->
  analyser_patient upper gid pd = Err (KeyError "nom").
Proof.
  intros upper gid pd p Hp Hs Hr Ha. unfold analyser_patient, valider_donnees_patient.
  rewrite Hp.
  destruct (symptomes pd); [|contradiction].
  destruct (pd_profil pd); [|contradiction].
  destruct (assoc (upper p) pathologies_reference) eqn:E; [|contradiction].
  cbn [bind]. rewrite ranker_keyerror; [reflexivity|].
  unfold pathologie_of. rewrite Hp. cbn [get]. rewrite E. discriminate.
Qed.

(** C8: [analyser_patient] raises [ValueError] exactly when the pathology,
    the symptom list or the profile is absent, or when the upper-cased
    pathology is not a key of the pathology table. *)
Theorem analyser_patient_validation : forall upper gid pd,
  (exists msg, analyser_patient upper gid pd = Err (ValueError msg)) <->
  (pathologie pd = None \/ symptomes pd = None \/ pd_profil pd = None \/
   exists p, pathologie pd = Some p /\ assoc (upper p) pathologies_reference = None).
Proof.
  intros upper gid pd. split.
  - intros [msg Hm].
    destruct (pathologie pd) as [p|] eqn:Hp; [|left; reflexivity].
    destruct (symptomes pd) eqn:Hs; [|right; left; reflexivity].
    destruct (pd_profil pd) eqn:Hr; [|right; right; left; reflexivity].
    destruct (assoc (upper p) pathologies_reference) eqn:Ha;
      [|right; right; right; exists p; split; [reflexivity | exact Ha]].
    exfalso.
    rewrite (valid_keyerror upper gid pd p Hp) in Hm;
      [discriminate Hm | rewrite Hs; discriminate | rewrite Hr; discriminate
      | rewrite Ha; discriminate].
  - intros H. unfold analyser_patient, valider_donnees_patient.
    destruct H as [H|[H|[H|(p & Hp & Ha)]]].
    + rewrite H. eexists; reflexivity.
    + destruct (pathologie pd); [rewrite H|]; eexists; reflexivity.
    + destruct (pathologie pd); [destruct (symptomes pd); [rewrite H|]|];
        eexists; reflexivity.
    + rewrite Hp. destruct (symptomes pd); [destruct (pd_profil pd); [rewrite Ha|]|];
        eexists; reflexivity.
Qed.

(** The input [{'pathologie': 'GRIPPE', 'symptomes': ['FIÈVRE', 'TOUX'],
    'profil': {'age': a, 'comorbidities': 0}}]. *)
Definition patient_grippe (a : Z) : patient_data :=
  mkPatient None (Some "GRIPPE") (Some ["FIÈVRE"; "TOUX"])
            (Some (mkProfil (Some a) (Some 0%Z) None)).

(** C7 (no duration is produced): for the influenza input with any age, in
    particular 20 and 70, [analyser_patient] raises [KeyError('nom')] in the
    treatment ranker, so no predicted duration exists to compare. *)
Theorem analyser_patient_grippe_keyerror : forall gid a,
  analyser_patient ascii_upper gid (patient_grippe a) = Err (KeyError "nom").
Proof.
  intros gid a. apply (valid_keyerror ascii_upper gid (patient_grippe a) "GRIPPE");
    cbn; [reflexivity | discriminate | discriminate | discriminate].
Qed.

(** C10: [analyser_cohorte] raises [ZeroDivisionError] on an empty list; on
    a non-empty list it returns a report with one total per input and a
    success rate equal to the number of successful analyses over the total. *)
Theorem analyser_cohorte_taux : forall upper gid,
  analyser_cohorte upper gid [] = Err ZeroDivisionError /\
  forall ps, ps <> [] ->
    exists r, analyser_cohorte upper gid ps = Ok r /\
              total_patients r = length ps /\
              analyses_reussies r = length (reussies (map (analyser_entree upper gid) ps)) /\
              taux_reussite r = Qnat (analyses_reussies r) / Qnat (total_patients r).
Proof.
  intros upper gid. split; [reflexivity|].
  intros [|p ps] H; [contradiction|].
  eexists. split; [reflexivity|]. repeat split.
Qed.

(** Witness of C10 on a one-patient cohort. *)
Lemma analyser_cohorte_taux_witness :
  [patient_grippe 30%Z] <> [] /\
  exists r, analyser_cohorte ascii_upper (fun _ => "PAT") [patient_grippe 30%Z] = Ok r /\
            total_patients r = 1%nat /\
            analyses_reussies r = length (reussies
                                   (map (analyser_entree ascii_upper (fun _ => "PAT"))
                                        [patient_grippe 30%Z])) /\
            taux_reussite r = Qnat (analyses_reussies r) / Qnat (total_patients r).
Proof.
  split; [discriminate|].
  exact (proj2 (analyser_cohorte_taux ascii_upper (fun _ => "PAT")) [patient_grippe 30%Z]
           ltac:(discriminate)).
Defined.

(** *** Bounds of the composite scores *)

Lemma in01_half : in01 (1#2).
Proof. unfold in01; lra. Qed.

Lemma in01_clamp : forall x, in01 (Qmax 0 (Qmin x 1)).
Proof.
  intros x. split; [apply Q.le_max_l|].
  apply Q.max_lub; [lra | apply Q.le_min_r].
Qed.

Lemma in01_clamp_min : forall x, in01 (Qmin (Qmax x 0) 1).
Proof.
  intros x. split; [|apply Q.le_min_r].
  apply Q.min_glb; [apply Q.le_max_r | lra].
Qed.

Lemma in01_max : forall a b, in01 a -> in01 b -> in01 (Qmax a b).
Proof.
  intros a b [Ha0 Ha1] [Hb0 Hb1]. split.
  - apply Qle_trans with a; [exact Ha0 | apply Q.le_max_l].
  - apply Q.max_lub; assumption.
Qed.

Lemma in01_complement_gravite : forall g, in01 g -> in01 (1 - g * (3#10)).
Proof. intros g [H0 H1]. unfold in01. split; lra. Qed.

Lemma in01_complement_abs : forall a b, in01 a -> in01 b -> in01 (1 - Qabs (a - b)).
Proof.
  intros a b [Ha0 Ha1] [Hb0 Hb1].
  pose proof (Qabs_nonneg (a - b)) as Hn.
  assert (Hle : Qabs (a - b) <= 1) by (apply Qabs_Qle_condition; split; lra).
  unfold in01. split; lra.
Qed.

Lemma Qsum_bounds : forall xs, Forall in01 xs -> 0 <= Qsum xs <= Qnat (length xs).
Proof.
  induction 1 as [|x xs [Hx0 Hx1] _ [IH0 IH1]].
  - split; apply Qle_refl.
  - change (Qsum (x :: xs)) with (x + Qsum xs).
    unfold Qnat in *. cbn [length].
    rewrite Nat2Z.inj_succ, <- Z.add_1_r, inject_Z_plus.
    change (inject_Z 1) with 1. split; lra.
Qed.

Lemma Qmean_in01 : forall xs, xs <> [] -> Forall in01 xs -> in01 (Qmean xs).
Proof.
  intros xs Hne Hf. destruct (Qsum_bounds xs Hf) as [H0 H1].
  assert (Hpos : 0 < Qnat (length xs)).
  { destruct xs as [|x xs]; [contradiction|].
    unfold Qnat, Qlt. cbn [Qnum Qden inject_Z]. simpl length. lia. }
  unfold Qmean. fold (Qnat (length xs)). split.
  - apply Qle_shift_div_l; [exact Hpos|]. rewrite Qmult_0_l. exact H0.
  - apply Qle_shift_div_r; [exact Hpos|]. rewrite Qmult_1_l. exact H1.
Qed.

Lemma Qmean4_in01 : forall a b c d, in01 a -> in01 b -> in01 c -> in01 d ->
  in01 (Qmean [a; b; c; d]).
Proof.
  intros. apply Qmean_in01; [discriminate|].
  repeat (apply Forall_cons; [assumption|]). apply Forall_nil.
Qed.

Lemma Qmean5_in01 : forall a b c d e, in01 a -> in01 b -> in01 c -> in01 d -> in01 e ->
  in01 (Qmean [a; b; c; d; e]).
Proof.
  intros. apply Qmean_in01; [discriminate|].
  repeat (apply Forall_cons; [assumption|]). apply Forall_nil.
Qed.

Ltac in01_cases :=
  cbv zeta;
  repeat match goal with
         | |- in01 (match ?x with _ => _ end) => destruct x
         end;
  first [apply in01_half | apply in01_clamp | apply in01_clamp_min].

Lemma calculer_gravite_in01 : forall s p pd, in01 (calculer_gravite s p pd).
Proof. intros. unfold calculer_gravite. in01_cases. Qed.

Lemma evaluer_potentiel_in01 : forall p, in01 (evaluer_potentiel_retablissement p).
Proof. intros. unfold evaluer_potentiel_retablissement. in01_cases. Qed.

Lemma calculer_resilience_in01 : forall prc p pd, in01 (calculer_resilience prc p pd).
Proof. intros. unfold calculer_resilience. in01_cases. Qed.

Lemma evaluer_harmonie_in01 : forall p, in01 (evaluer_harmonie_biologique p).
Proof. intros. unfold evaluer_harmonie_biologique. in01_cases. Qed.

Lemma condition_in01 : forall upper pd,
  in01 (score_gravite (analyser_condition_patient upper pd)) /\
  in01 (resilience_patient (analyser_condition_patient upper pd)) /\
  in01 (potentiel_retablissement (analyser_condition_patient upper pd)) /\
  in01 (harmonie_biologique (analyser_condition_patient upper pd)).
Proof.
  intros. unfold analyser_condition_patient. cbv zeta.
  cbn [score_gravite resilience_patient potentiel_retablissement harmonie_biologique].
  split; [apply calculer_gravite_in01|].
  split; [apply calculer_resilience_in01|].
  split; [apply evaluer_potentiel_in01 | apply evaluer_harmonie_in01].
Qed.

Lemma fold_max_in01 : forall ts m, in01 m ->
  Forall (fun t => in01 (c_score_global t)) ts ->
  in01 (fold_left (fun m x => Qmax m (c_score_global x)) ts m).
Proof.
  induction ts as [|u ts IH]; intros m Hm Hts; [exact Hm|].
  inversion Hts as [|? ? Hu Hts']; subst. simpl.
  apply IH; [apply in01_max; assumption | assumption].
Qed.

Lemma top_score_in01 : forall ts, Forall (fun t => in01 (c_score_global t)) ts ->
  in01 (match ts with [] => 3#10 | _ => max_score ts end).
Proof.
  intros [|t ts] H; [unfold in01; lra|].
  inversion H as [|? ? Ht Hts]; subst.
  unfold max_score. apply fold_max_in01; assumption.
Qed.

Lemma stabilite_facteur_in01 : forall p, in01 (stabilite_facteur p).
Proof.
  intros p. unfold stabilite_facteur.
  destruct (evaluer_stabilite_structurelle p); unfold in01; lra.
Qed.

Lemma prediction_in01 : forall upper pd c ts,
  in01 (score_gravite c) -> in01 (potentiel_retablissement c) ->
  in01 (harmonie_biologique c) ->
  Forall (fun t => in01 (c_score_global t)) ts ->
  in01 (probabilite_succes (predire_retablissement upper pd c ts)) /\
  in01 (niveau_confiance (predire_retablissement upper pd c ts)) /\
  in01 (calculer_confiance_globale c (predire_retablissement upper pd c ts) ts).
Proof.
  intros upper pd c ts Hg Hp Hh Hts.
  assert (Hn : in01 (niveau_confiance (predire_retablissement upper pd c ts))).
  { destruct ts as [|t ts'].
    - cbn. unfold in01; lra.
    - cbn [predire_retablissement niveau_confiance].
      unfold calculer_confiance_prediction.
      apply Qmean4_in01;
        [exact Hh | apply (top_score_in01 _ Hts) | apply in01_complement_gravite, Hg
        | apply stabilite_facteur_in01]. }
  assert (Hs : in01 (probabilite_succes (predire_retablissement upper pd c ts))).
  { destruct ts as [|t ts'].
    - apply in01_half.
    - cbn [predire_retablissement probabilite_succes].
      unfold calculer_probabilite_succes. cbv zeta. apply in01_clamp_min. }
  split; [exact Hs|]. split; [exact Hn|].
  unfold calculer_confiance_globale.
  apply Qmean5_in01;
    [exact Hh | apply (top_score_in01 _ Hts) | exact Hn | apply stabilite_facteur_in01
    | apply in01_complement_abs; assumption].
Qed.

(** C3: on every input, the severity, resilience, recovery potential and
    biological harmony of the condition lie in [0, 1]; for every list of
    treatment candidates whose global scores lie in [0, 1], so do the success
    probability, the prediction confidence and the global confidence computed
    from that condition. *)
Theorem scores_in01 : forall upper pd ts,
  Forall (fun t => in01 (c_score_global t)) ts ->
  in01 (score_gravite (analyser_condition_patient upper pd)) /\
  in01 (resilience_patient (analyser_condition_patient upper pd)) /\
  in01 (potentiel_retablissement (analyser_condition_patient upper pd)) /\
  in01 (harmonie_biologique (analyser_condition_patient upper pd)) /\
  in01 (probabilite_succes
          (predire_retablissement upper pd (analyser_condition_patient upper pd) ts)) /\
  in01 (niveau_confiance
          (predire_retablissement upper pd (analyser_condition_patient upper pd) ts)) /\
  in01 (calculer_confiance_globale (analyser_condition_patient upper pd)
          (predire_retablissement upper pd (analyser_condition_patient upper pd) ts) ts).
Proof.
  intros upper pd ts Hts.
  destruct (condition_in01 upper pd) as (Hg & Hr & Hp & Hh).
  destruct (prediction_in01 upper pd (analyser_condition_patient upper pd) ts Hg Hp Hh Hts)
    as (Hs & Hn & Hc).
  repeat split; assumption || apply Hg || apply Hr || apply Hp || apply Hh
                || apply Hs || apply Hn || apply Hc.
Qed.

(** A candidate of global score 0.75 for the influenza protocol. *)
Definition candidat_exemple : candidat :=
  mkCandidat "ANTIVIRAL" "PROTOCOLE_STANDARD_GRIPPE" (7#10) (1#2) (3#4) 2 [].

(** Witness of C3 on the influenza input at age 30 with that candidate. *)
Lemma scores_in01_witness :
  Forall (fun t => in01 (c_score_global t)) [candidat_exemple] /\
  in01 (calculer_confiance_globale
          (analyser_condition_patient ascii_upper (patient_grippe 30%Z))
          (predire_retablissement ascii_upper (patient_grippe 30%Z)
             (analyser_condition_patient ascii_upper (patient_grippe 30%Z))
             [candidat_exemple])
          [candidat_exemple]).
Proof.
  assert (H : Forall (fun t => in01 (c_score_global t)) [candidat_exemple]).
  { apply Forall_cons; [|apply Forall_nil].
    unfold in01, Qle. simpl. split; lia. }
  split; [exact H|].
  exact (proj2 (proj2 (proj2 (proj2 (proj2 (proj2
           (scores_in01 ascii_upper (patient_grippe 30%Z) [candidat_exemple] H))))))).
Defined.

(** *** The predicted duration *)

Lemma py_int_comp : forall x y, x == y -> py_int x = py_int y.
Proof.
  intros x y H. unfold py_int.
  destruct (Qle_bool 0 x) eqn:Ex, (Qle_bool 0 y) eqn:Ey.
  - apply Qfloor_comp. exact H.
  - apply Qle_bool_iff in Ex. rewrite H in Ex. apply Qle_bool_iff in Ex. congruence.
  - apply Qle_bool_iff in Ey. rewrite <- H in Ey. apply Qle_bool_iff in Ey. congruence.
  - f_equal. apply Qfloor_comp. rewrite H. reflexivity.
Qed.

(** C1 (amended): with a recognised pathology and at least one candidate,
    the predicted duration is [max(1, int(base * (1 + 0.5 severity
    - resilience adjustment - treatment adjustment + senior + comorbidity)))]
    where [base] is the table duration, [int] truncates toward zero, the
    senior term is 0.2 when the age (default 40) is at least 65, and the
    comorbidity term is [min(0.1 * count, 0.3)] (count default 0); the two
    adjustments are those of [_predire_duree_maladie] applied to the
    patient's resilience and to the best candidate's global score. *)
Theorem duree_maladie_formule : forall upper pd c best ts r,
  assoc (upper (pathologie_of pd)) pathologies_reference = Some r ->
  duree_maladie_predite (predire_retablissement upper pd c (best :: ts)) =
  Z.max 1 (py_int (inject_Z (duree_moyenne r) *
     (1 + (1#2) * score_gravite c
        - ajustement_resilience (resilience_patient c)
        - ajustement_traitement (c_score_global best)
        + (if (65 <=? get (age (profil_of pd)) 40%Z)%Z then 2#10 else 0)
        + Qmin (inject_Z (get (comorbidities (profil_of pd)) 0%Z) * (1#10)) (3#10)))).
Proof.
  intros upper pd c best ts r H.
  cbn [predire_retablissement duree_maladie_predite].
  unfold predire_duree_maladie. rewrite H. cbn [option_map get].
  f_equal. apply py_int_comp.
  unfold ajustement_age, comorbidities_factor. ring.
Qed.

(** Witness of C1 on the influenza input at age 70 with one candidate. *)
Lemma duree_maladie_formule_witness :
  exists r, assoc (ascii_upper (pathologie_of (patient_grippe 70%Z))) pathologies_reference
              = Some r /\
  duree_maladie_predite
    (predire_retablissement ascii_upper (patient_grippe 70%Z)
       (analyser_condition_patient ascii_upper (patient_grippe 70%Z)) [candidat_exemple]) =
  Z.max 1 (py_int (inject_Z (duree_moyenne r) *
     (1 + (1#2) * score_gravite (analyser_condition_patient ascii_upper (patient_grippe 70%Z))
        - ajustement_resilience
            (resilience_patient (analyser_condition_patient ascii_upper (patient_grippe 70%Z)))
        - ajustement_traitement (c_score_global candidat_exemple)
        + (if (65 <=? get (age (profil_of (patient_grippe 70%Z))) 40%Z)%Z then 2#10 else 0)
        + Qmin (inject_Z (get (comorbidities (profil_of (patient_grippe 70%Z))) 0%Z) * (1#10))
               (3#10)))).
Proof.
  eexists. split; [reflexivity|].
  apply (duree_maladie_formule ascii_upper (patient_grippe 70%Z)
           (analyser_condition_patient ascii_upper (patient_grippe 70%Z))
           candidat_exemple []).
  reflexivity.
Defined.

(** The input [{'pathologie': 'GRIPPE', 'symptomes': ['DYSPNÉE'],
    'profil': {'age': 70, 'comorbidities': 0, 'immunity_level': 0.0}}]. *)
Definition patient_dyspnee : patient_data :=
  mkPatient None (Some "GRIPPE") (Some ["DYSPNÉE"])
            (Some (mkProfil (Some 70%Z) (Some 0%Z) (Some 0))).

(** A candidate of global score 0.5. *)
Definition candidat_demi : candidat :=
  mkCandidat "ANTIVIRAL" "PROTOCOLE_STANDARD_GRIPPE" (7#10) (1#2) (1#2) 2 [].

(** Counterexample to C1 as stated: severity 0.55, resilience 0.5, best
    score 0.5, age 70, no comorbidity, base 7: the adjusted duration is
    7.875, which the code truncates to 7 where the stated formula rounds to 8. *)
Lemma duree_maladie_formule_counterexample :
  score_gravite (analyser_condition_patient ascii_upper patient_dyspnee) == 11#20 /\
  resilience_patient (analyser_condition_patient ascii_upper patient_dyspnee) == 1#2 /\
  duree_maladie_predite
    (predire_retablissement ascii_upper patient_dyspnee
       (analyser_condition_patient ascii_upper patient_dyspnee) [candidat_demi]) = 7%Z /\
  duree_selon_spec 7
    (score_gravite (analyser_condition_patient ascii_upper patient_dyspnee))
    (resilience_patient (analyser_condition_patient ascii_upper patient_dyspnee))
    (c_score_global candidat_demi) 70 0 = 8%Z.
Proof.
  vm_compute. repeat split; reflexivity.
Qed.

(** *** The symptom-overlap factor *)

(** C6 (amended): for a treatment record carrying a name, the overlap factor
    is 0.5 when the name has no entry in the target map, and otherwise the
    number of the patient's symptoms found among the targets divided by the
    number of targets, capped at 1; it lies in [0, 1]. *)
Theorem adequation_symptomes_cibles : forall t nom syms,
  t_nom t = Some nom ->
  (assoc nom cibles_traitement = None ->
     evaluer_adequation_symptomes t syms = Ok (1#2)) /\
  (forall cibles, assoc nom cibles_traitement = Some cibles ->
     evaluer_adequation_symptomes t syms =
       Ok (Qmin (Qnat (length (filter (fun s => str_in s cibles) syms)) /
                 Qnat (length cibles)) 1)) /\
  (exists q, evaluer_adequation_symptomes t syms = Ok q /\ in01 q).
Proof.
  intros t nom syms Hn.
  assert (Hc : forall cibles, assoc nom cibles_traitement = Some cibles -> cibles <> []).
  { intros cibles. unfold cibles_traitement. cbn [assoc].
    repeat match goal with
           | |- context [String.eqb nom ?k] => destruct (String.eqb nom k)
           end;
      intros H; try discriminate H; injection H as <-; discriminate. }
  unfold evaluer_adequation_symptomes. rewrite Hn.
  split; [intros H; rewrite H; reflexivity|].
  split.
  - intros cibles H. rewrite H. cbn [get].
    destruct cibles as [|x xs]; [exfalso; exact (Hc [] H eq_refl)|]. reflexivity.
  - destruct (assoc nom cibles_traitement) as [cibles|] eqn:H; cbn [get].
    + destruct cibles as [|x xs]; [exfalso; exact (Hc [] eq_refl eq_refl)|].
      eexists. split; [reflexivity|]. split; [|apply Q.le_min_r].
      apply Q.min_glb; [|lra].
      apply Qle_shift_div_l.
      * unfold Qnat, Qlt. cbn [Qnum Qden inject_Z]. simpl length. lia.
      * rewrite Qmult_0_l. unfold Qnat, Qle. cbn [Qnum Qden inject_Z]. lia.
    + eexists. split; [reflexivity | apply in01_half].
Qed.

(** Witness of C6 on a record named ANTIVIRAL and the symptom list
    [FIÈVRE; TOUX]. *)
Lemma adequation_symptomes_cibles_witness :
  t_nom (mkTraitement (Some "ANTIVIRAL") (7#10) 2 (8#10) ["GRIPPE"; "COVID"])
    = Some "ANTIVIRAL" /\
  evaluer_adequation_symptomes
    (mkTraitement (Some "ANTIVIRAL") (7#10) 2 (8#10) ["GRIPPE"; "COVID"])
    ["FIÈVRE"; "TOUX"] =
  Ok (Qmin (Qnat (length (filter (fun s => str_in s ["FIÈVRE"; "FATIGUE"])
                                  ["FIÈVRE"; "TOUX"])) /
            Qnat (length ["FIÈVRE"; "FATIGUE"])) 1).
Proof.
  split; [reflexivity|].
  apply (proj1 (proj2 (adequation_symptomes_cibles
           (mkTraitement (Some "ANTIVIRAL") (7#10) 2 (8#10) ["GRIPPE"; "COVID"])
           "ANTIVIRAL" ["FIÈVRE"; "TOUX"] eq_refl))).
  reflexivity.
Defined.

(** Counterexample to C6 as stated: for a record named ANTIVIRAL (targets
    FIÈVRE and FATIGUE) and the single symptom FIÈVRE, every symptom of the
    patient is a target, yet the factor is 1/2 (one of two targets). *)
Lemma adequation_symptomes_cibles_counterexample :
  fraction_symptomes_patient ["FIÈVRE"; "FATIGUE"] ["FIÈVRE"] == 1 /\
  match evaluer_adequation_symptomes
          (mkTraitement (Some "ANTIVIRAL") (7#10) 2 (8#10) ["GRIPPE"; "COVID"]) ["FIÈVRE"] with
  | Ok q => q == 1#2
  | Err _ => False
  end.
Proof.
  vm_compute. split; reflexivity.
Qed.

End MedicalProofs.

(** * Further properties *)

(** ** Built pyramids *)

Lemma build_upper_length : forall base,
  length (p_upper (build_pyramid base)) = pred (length base).
Proof.
  intros base. pose proof (length_from_map _ _ (build_pyramid_upper_lengths base)) as H.
  rewrite length_rev in H. exact H.
Qed.

Lemma build_lower_length : forall base,
  length (p_lower (build_pyramid base)) = pred (length base).
Proof.
  intros base. exact (length_from_map _ _ (build_pyramid_lower_lengths base)).
Qed.

Lemma build_lower_last_single : forall base,
  p_lower (build_pyramid base) <> [] ->
  length (last (p_lower (build_pyramid base)) []) = 1%nat.
Proof.
  intros base Hne. rewrite last_map_length, build_pyramid_lower_lengths.
  apply last_rev_seq. rewrite <- build_lower_length.
  destruct (p_lower (build_pyramid base)); [contradiction | simpl; lia].
Qed.

Lemma build_branches_empty : forall base, (length base <= 1)%nat ->
  p_upper (build_pyramid base) = [] /\ p_lower (build_pyramid base) = [].
Proof.
  intros base H. pose proof (build_upper_length base) as Hu.
  pose proof (build_lower_length base) as Hl.
  split; apply length_zero_iff_nil; lia.
Qed.


(** *** The apex as a binomially weighted sum of the base *)











(** *** Bounds carried through the levels *)

Section LevelsForall.

Variable P : Z -> Prop.
Variable step : list Z -> list Z.
Hypothesis step_Forall : forall l, Forall P l -> Forall P (step l).

Lemma reduce_levels_Forall : forall fuel cur,
  Forall P cur -> Forall (Forall P) (reduce_levels step fuel cur).
Proof.
  induction fuel as [|k IH]; intros cur H; simpl; [constructor|].
  destruct (Nat.ltb 1 (length cur)); [|constructor].
  constructor; [apply step_Forall, H | apply IH, step_Forall, H].
Qed.

End LevelsForall.

Lemma next_sum_nonneg : forall l,
  Forall (fun x => 0 <= x)%Z l -> Forall (fun x => 0 <= x)%Z (next_sum l).
Proof.
  induction l as [|x t IH]; intros H; [constructor|].
  destruct t as [|y t]; [constructor|].
  inversion H as [|? ? Hx Ht]; subst. inversion Ht as [|? ? Hy _]; subst.
  constructor; [lia | apply IH, Ht].
Qed.

Lemma next_absdiff_bounded : forall M l,
  Forall (fun x => 0 <= x <= M)%Z l -> Forall (fun x => 0 <= x <= M)%Z (next_absdiff l).
Proof.
  intros M. induction l as [|x t IH]; intros H; [constructor|].
  destruct t as [|y t]; [constructor|].
  inversion H as [|? ? Hx Ht]; subst. inversion Ht as [|? ? Hy _]; subst.
  constructor; [lia | apply IH, Ht].
Qed.

Lemma head0_Forall : forall (P : Z -> Prop) l, P 0%Z -> Forall P l -> P (head0 l).
Proof. intros P [|x l] H0 H; [exact H0 | inversion H; assumption]. Qed.

Lemma last_Forall : forall {A} (P : A -> Prop) L d, P d -> Forall P L -> P (last L d).
Proof.
  intros A P L d Hd H. induction H as [|x L Hx HL IH]; [exact Hd|].
  destruct L; [exact Hx | exact IH].
Qed.

Lemma sommet_build_nonneg : forall base,
  Forall (fun x => 0 <= x)%Z base -> (0 <= sommet_of (build_pyramid base))%Z.
Proof.
  intros base H. unfold sommet_of. cbn [p_upper build_pyramid].
  assert (HL := reduce_levels_Forall _ _ next_sum_nonneg (length base) base H).
  apply Forall_rev in HL.
  destruct (rev _) as [|lvl r]; [apply (head0_Forall (fun x => 0 <= x)%Z); [lia | exact H]|].
  inversion HL; subst. apply (head0_Forall (fun x => 0 <= x)%Z); [lia | assumption].
Qed.

Lemma base_build_bounded : forall M base, (0 <= M)%Z ->
  Forall (fun x => 0 <= x <= M)%Z base -> (0 <= base_of (build_pyramid base) <= M)%Z.
Proof.
  intros M base HM H. unfold base_of. cbn [p_lower build_pyramid].
  assert (HL := reduce_levels_Forall _ _ (next_absdiff_bounded M) (length base) base H).
  destruct (reduce_levels _ _ _).
  - apply (head0_Forall (fun x => 0 <= x <= M)%Z); [lia | exact H].
  - apply (head0_Forall (fun x => 0 <= x <= M)%Z); [lia|].
    apply last_Forall; [constructor | exact HL].
Qed.

Lemma ratio_harmonie_in01 : forall s b, (0 <= s)%Z -> (0 <= b)%Z ->
  in01 (calculer_ratio_harmonie s b).
Proof.
  intros s b Hs Hb. unfold calculer_ratio_harmonie.
  destruct (Z.eqb_spec b 0) as [_|Hb0]; [unfold in01; split; lra|].
  set (r := inject_Z (Z.min s b) / inject_Z (Z.max s b)).
  assert (Hpos : 0 < inject_Z (Z.max s b)) by (unfold Qlt; simpl; lia).
  assert (Hr0 : 0 <= r).
  { apply Qle_shift_div_l; [exact Hpos|]. rewrite Qmult_0_l. unfold Qle; simpl; lia. }
  assert (Hr1 : r <= 1).
  { apply Qle_shift_div_r; [exact Hpos|]. rewrite Qmult_1_l. unfold Qle; simpl; lia. }
  pose proof (Qabs_nonneg (r - (618 # 1000))) as Hn.
  assert (Hle : Qabs (r - (618 # 1000)) <= 1) by (apply Qabs_Qle_condition; split; lra).
  unfold in01. split; lra.
Qed.

Lemma next_absdiff_nonneg : forall l, Forall (fun x => 0 <= x)%Z (next_absdiff l).
Proof.
  induction l as [|x t IH]; [constructor|].
  destruct t as [|y t]; [constructor|].
  constructor; [lia | exact IH].
Qed.

Lemma build_upper_nonneg : forall base, Forall (fun x => 0 <= x)%Z base ->
  Forall (Forall (fun x => 0 <= x)%Z) (p_upper (build_pyramid base)).
Proof.
  intros base H. apply Forall_rev.
  apply reduce_levels_Forall; [apply next_sum_nonneg | exact H].
Qed.

Lemma build_lower_nonneg : forall base,
  Forall (Forall (fun x => 0 <= x)%Z) (p_lower (build_pyramid base)).
Proof.
  intros base. cbn [p_lower build_pyramid].
  generalize (length base). intros fuel. revert base.
  induction fuel as [|k IH]; intros cur; simpl; [constructor|].
  destruct (Nat.ltb 1 (length cur)); [|constructor].
  constructor; [apply next_absdiff_nonneg | apply IH].
Qed.

Lemma calculer_symetrie_build : forall base,
  calculer_symetrie (build_pyramid base) == if Nat.leb 2 (length base) then 1 else 0.
Proof.
  intros base. unfold calculer_symetrie.
  assert (Hu := build_upper_length base). assert (Hl := build_lower_length base).
  destruct (Nat.leb_spec 2 (length base)) as [H2|H1].
  - revert Hu Hl.
    destruct (p_upper (build_pyramid base)) as [|u us]; intros Hu; [simpl in Hu; lia|].
    destruct (p_lower (build_pyramid base)) as [|l ls]; intros Hl; [simpl in Hl; lia|].
    rewrite Hu, Hl. unfold Qminus.
    setoid_rewrite Qplus_opp_r. change (Qabs 0) with 0%Q.
    unfold Qdiv. rewrite Qmult_0_l. ring.
  - destruct (build_branches_empty base ltac:(lia)) as [Eu _]. rewrite Eu. reflexivity.
Qed.

Lemma evaluer_stabilite_build : forall np_std base,
  evaluer_stabilite np_std (build_pyramid base) = true.
Proof.
  intros np_std base. unfold evaluer_stabilite.
  assert (H := build_lower_last_single base). revert H.
  destruct (p_lower (build_pyramid base)) as [|l ls]; intros H; [reflexivity|].
  rewrite H by discriminate. reflexivity.
Qed.

Lemma Qmean_nonneg : forall xs, Forall (fun q => 0 <= q) xs -> 0 <= Qmean xs.
Proof.
  intros xs H. unfold Qmean, Qdiv. apply Qmult_le_0_compat.
  - induction H as [|x xs Hx _ IH]; [apply Qle_refl|].
    change (Qsum (x :: xs)) with (x + Qsum xs). lra.
  - apply Qinv_le_0_compat. unfold Qle. simpl. lia.
Qed.

Lemma concat_nonneg_Q : forall L, Forall (Forall (fun x => 0 <= x)%Z) L ->
  Forall (fun q => 0 <= q) (map inject_Z (concat L)).
Proof.
  intros L H. apply Forall_map. induction H as [|l L Hl _ IH]; [constructor|].
  simpl. apply Forall_app. split; [|exact IH].
  eapply Forall_impl; [|exact Hl]. intros x Hx. cbv beta in *. unfold Qle. simpl. lia.
Qed.

Lemma equilibre_in01 : forall a b, 0 <= a -> 0 <= b -> 0 < Qmax a b ->
  in01 (1 - Qabs (a - b) / Qmax a b).
Proof.
  intros a b Ha Hb HM.
  pose proof (Q.le_max_l a b) as Hma. pose proof (Q.le_max_r a b) as Hmb.
  assert (Hle : Qabs (a - b) <= Qmax a b) by (apply Qabs_Qle_condition; split; lra).
  assert (H0 : 0 <= Qabs (a - b) / Qmax a b).
  { apply Qle_shift_div_l; [exact HM|]. rewrite Qmult_0_l. apply Qabs_nonneg. }
  assert (H1 : Qabs (a - b) / Qmax a b <= 1).
  { apply Qle_shift_div_r; [exact HM|]. rewrite Qmult_1_l. exact Hle. }
  unfold in01. split; lra.
Qed.

Lemma scores_harmonie_bounds : forall c eq, c == 1 ->
  eq = [] \/ (exists e, eq = [e] /\ in01 e) ->
  2 # 3 <= match ([c; 1] ++ eq)%list with [] => 1 # 2 | _ => Qmean ([c; 1] ++ eq) end /\
  match ([c; 1] ++ eq)%list with [] => 1 # 2 | _ => Qmean ([c; 1] ++ eq) end <= 1.
Proof.
  intros c eq Hc [->|(e & -> & He0 & He1)]; cbn [app];
    unfold Qmean, Qsum; cbn [fold_right length].
  - change (inject_Z (Z.of_nat 2)) with (2 # 1).
    split; [apply Qle_shift_div_l | apply Qle_shift_div_r]; try reflexivity; lra.
  - change (inject_Z (Z.of_nat 3)) with (3 # 1).
    split; [apply Qle_shift_div_l | apply Qle_shift_div_r]; try reflexivity; lra.
Qed.

Lemma score_harmonie_bounds_gen : forall np_std p,
  calculer_symetrie p == 1 -> evaluer_stabilite np_std p = true ->
  Forall (Forall (fun x => 0 <= x)%Z) (p_upper p) ->
  Forall (Forall (fun x => 0 <= x)%Z) (p_lower p) ->
  2 # 3 <= calculer_score_harmonie_global np_std p /\
  calculer_score_harmonie_global np_std p <= 1.
Proof.
  intros np_std p Hs Hst HU HL. unfold calculer_score_harmonie_global.
  rewrite Hst. cbv beta iota zeta.
  apply scores_harmonie_bounds; [exact Hs|].
  revert HU HL. generalize (p_upper p) (p_lower p).
  intros [|u us] [|l ls] HU HL; try (left; reflexivity).
  cbv beta iota zeta.
  assert (HC1 := concat_nonneg_Q _ HU). assert (HC2 := concat_nonneg_Q _ HL).
  revert HC1 HC2.
  destruct (concat (u :: us)) as [|a1 r1]; [intros; left; reflexivity|].
  destruct (concat (l :: ls)) as [|a2 r2]; [intros; left; reflexivity|].
  intros HC1 HC2. cbv beta iota.
  destruct (Qle_bool _ 0) eqn:E; [left; reflexivity|].
  right. eexists. split; [reflexivity|].
  apply equilibre_in01; [apply Qmean_nonneg; exact HC1 | apply Qmean_nonneg; exact HC2|].
  apply Qnot_le_lt. intros Hle. apply Qle_bool_iff in Hle. congruence.
Qed.

(** ** Signatures and interpretation of [algo_verite.py] *)

Module SignatureProofs.


(** A base of [n] elements gives [niveaux_total = 2(n-1) + 1] levels and a
    symmetry signature of 1 when [n >= 2], 0 otherwise (both branches are
    then empty). *)
Theorem signatures_niveaux_symetrie : forall base nom,
  let sg := calculer_signatures (build_pyramid base) nom in
  niveaux_total sg = (2 * pred (length base) + 1)%nat /\
  symetrie_score sg == (if Nat.leb 2 (length base) then 1 else 0).
Proof.
  intros base nom. cbv zeta. unfold calculer_signatures.
  cbn [niveaux_total symetrie_score]. split.
  - rewrite build_upper_length, build_lower_length. lia.
  - apply calculer_symetrie_build.
Qed.

(** For a base of values in [[0, M]]: the apex is non-negative, the final
    point of the descending branch ([base_fondamentale]) lies in [[0, M]],
    and the harmony ratio lies in [[0, 1]]. *)
Theorem signatures_bornes : forall base nom M,
  (0 <= M)%Z -> Forall (fun x => 0 <= x <= M)%Z base ->
  let sg := calculer_signatures (build_pyramid base) nom in
  (0 <= sommet_pyramidal sg)%Z /\
  (0 <= base_fondamentale sg <= M)%Z /\
  in01 (ratio_harmonie sg).
Proof.
  intros base nom M HM H. cbv zeta. unfold calculer_signatures.
  cbn [sommet_pyramidal base_fondamentale ratio_harmonie].
  assert (Hn : Forall (fun x => 0 <= x)%Z base)
    by (eapply Forall_impl; [|exact H]; intros x Hx; cbv beta in *; lia).
  pose proof (sommet_build_nonneg base Hn) as Hs.
  pose proof (base_build_bounded M base HM H) as Hb.
  split; [exact Hs|]. split; [exact Hb|].
  apply ratio_harmonie_in01; lia.
Qed.

Lemma signatures_bornes_witness :
  (0 <= 3)%Z /\ Forall (fun x => 0 <= x <= 3)%Z [3; 1; 2]%Z /\
  let sg := calculer_signatures (build_pyramid [3; 1; 2]%Z) "s" in
  (0 <= sommet_pyramidal sg)%Z /\
  (0 <= base_fondamentale sg <= 3)%Z /\
  in01 (ratio_harmonie sg).
Proof.
  assert (H : Forall (fun x => 0 <= x <= 3)%Z [3; 1; 2]%Z) by (repeat constructor; lia).
  split; [lia|]. split; [exact H|].
  exact (signatures_bornes [3; 1; 2]%Z "s" 3%Z ltac:(lia) H).
Defined.

(** [_interpreter_pyramide] on a built pyramid of a base of [n] elements:
    the growth and stability patterns always hold, fast convergence holds
    exactly when [n <= 4], the complexity level is SIMPLE for [n <= 2],
    MODEREE for [n <= 4], COMPLEXE for [n = 5] and TRES_COMPLEXE beyond, and
    the principles end with the growth, convergence and stability lines. *)
Theorem interpretation_construite : forall np_std base,
  let n := length base in
  let i := interpreter_pyramide np_std (build_pyramid base) in
  croissance_harmonieuse (patterns i) = true /\
  stabilite_structurelle (patterns i) = true /\
  convergence_rapide (patterns i) = Nat.leb n 4 /\
  niveau_complexite i =
    (if Nat.leb n 2 then SIMPLE else if Nat.leb n 4 then MODEREE
     else if Nat.leb n 5 then COMPLEXE else TRES_COMPLEXE) /\
  exists pre, principes_structurels i =
    (pre ++ ["Croissance et réduction harmonieuses";
             if Nat.leb n 4 then "Convergence rapide vers la stabilité"
             else "Convergence progressive nécessitant une exploration approfondie";
             "Structure stable et cohérente"])%list.
Proof.
  intros np_std base. cbv zeta. unfold interpreter_pyramide.
  cbn [patterns principes_structurels niveau_complexite
       croissance_harmonieuse stabilite_structurelle convergence_rapide
       unite_fondamentale equilibre_parfait].
  rewrite build_upper_length, build_lower_length, evaluer_stabilite_build, Nat.eqb_refl.
  assert (Hc : Nat.ltb (pred (length base)) 4 = Nat.leb (length base) 4).
  { destruct (Nat.ltb_spec (pred (length base)) 4);
      destruct (Nat.leb_spec (length base) 4); lia. }
  rewrite Hc.
  split; [reflexivity|]. split; [reflexivity|]. split; [reflexivity|]. split.
  - unfold evaluer_complexite. rewrite build_upper_length, build_lower_length.
    destruct (Nat.leb_spec (pred (length base) + pred (length base)) 3);
    destruct (Nat.leb_spec (length base) 2); try lia; [reflexivity|].
    destruct (Nat.leb_spec (pred (length base) + pred (length base)) 6);
    destruct (Nat.leb_spec (length base) 4); try lia; [reflexivity|].
    destruct (Nat.leb_spec (pred (length base) + pred (length base)) 9);
    destruct (Nat.leb_spec (length base) 5); try lia; reflexivity.
  - eexists. rewrite <- app_assoc. reflexivity.
Qed.

(** [_calculer_score_harmonie_global] on a built pyramid: 1/2 for a base of
    at most one element (symmetry 0, stability 1); for a base of at least
    two non-negative elements it lies in [[2/3, 1]] (symmetry 1, stability 1
    and a value balance in [[0, 1]]). *)
Theorem score_harmonie_construite : forall np_std base,
  Forall (fun x => 0 <= x)%Z base ->
  let s := calculer_score_harmonie_global np_std (build_pyramid base) in
  ((length base <= 1)%nat -> s == 1 # 2) /\
  ((2 <= length base)%nat -> 2 # 3 <= s /\ s <= 1).
Proof.
  intros np_std base H. cbv zeta. split.
  - intros H1. destruct base as [|x [|y t]]; simpl in H1; try lia; vm_compute; reflexivity.
  - intros H2. apply score_harmonie_bounds_gen.
    + rewrite calculer_symetrie_build.
      destruct (Nat.leb_spec 2 (length base)); [reflexivity | lia].
    + apply evaluer_stabilite_build.
    + apply build_upper_nonneg, H.
    + apply build_lower_nonneg.
Qed.

Lemma score_harmonie_construite_witness :
  Forall (fun x => 0 <= x)%Z [1; 2; 3]%Z /\
  2 # 3 <= calculer_score_harmonie_global (fun _ => 0) (build_pyramid [1; 2; 3]%Z) /\
  calculer_score_harmonie_global (fun _ => 0) (build_pyramid [1; 2; 3]%Z) <= 1.
Proof.
  assert (H : Forall (fun x => 0 <= x)%Z [1; 2; 3]%Z) by (repeat constructor; lia).
  split; [exact H|].
  exact (proj2 (score_harmonie_construite (fun _ => 0) [1; 2; 3]%Z H) ltac:(simpl; lia)).
Defined.

End SignatureProofs.

(** ** Comparison, archive and journal of [AlgoVerite] *)

Module AlgoVeriteExtra.
Import AlgoVerite AlgoVeriteProofs.

Lemma assoc_dict_set_eq : forall {V : Type} k k' (v : V) d,
  assoc k (dict_set k' v d) = if String.eqb k k' then Some v else assoc k d.
Proof.
  intros V k k' v d. destruct (String.eqb_spec k k') as [->|Hne].
  - apply assoc_dict_set.
  - induction d as [|[k0 v0] d IH]; simpl.
    + apply String.eqb_neq in Hne. rewrite Hne. reflexivity.
    + destruct (String.eqb_spec k' k0) as [->|Hne0]; simpl.
      * apply String.eqb_neq in Hne. rewrite Hne. reflexivity.
      * destruct (String.eqb k k0); [reflexivity | exact IH].
Qed.

Lemma dict_set_keys : forall {V : Type} k (v : V) d,
  map fst (dict_set k v d) =
  if str_in k (map fst d) then map fst d else (map fst d ++ [k])%list.
Proof.
  intros V k v d. unfold str_in. induction d as [|[k0 v0] d IH]; [reflexivity|].
  simpl. destruct (String.eqb_spec k k0) as [->|Hne]; simpl; [reflexivity|].
  rewrite IH. destruct (existsb _ _); reflexivity.
Qed.

Lemma absdiff_sum_comm : forall b1 b2,
  fold_right Z.add 0%Z (map (fun ab => Z.abs (fst ab - snd ab)) (combine b1 b2)) =
  fold_right Z.add 0%Z (map (fun ab => Z.abs (fst ab - snd ab)) (combine b2 b1)).
Proof.
  induction b1 as [|x t IH]; intros [|y u]; try reflexivity.
  simpl. rewrite IH. f_equal. lia.
Qed.

Lemma absdiff_sum_self : forall b,
  fold_right Z.add 0%Z (map (fun ab => Z.abs (fst ab - snd ab)) (combine b b)) = 0%Z.
Proof. induction b as [|x t IH]; [reflexivity|]. simpl. rewrite IH. lia. Qed.

Lemma Qnat_diff_self : forall u m, Qabs (Qnat u - Qnat u) / Qnat m == 0.
Proof.
  intros u m. unfold Qminus. rewrite Qplus_opp_r. change (Qabs 0) with 0.
  unfold Qdiv. apply Qmult_0_l.
Qed.

Lemma similarite_self : forall p, calculer_similarite_pyramidale p p == 1.
Proof.
  intros p. unfold calculer_similarite_pyramidale. cbv zeta.
  rewrite Nat.eqb_refl, absdiff_sum_self. cbn [negb].
  rewrite Qnat_diff_self.
  assert (H0 : forall d, (if (0 <? d)%Z then inject_Z 0 / inject_Z d else 0) == 0).
  { intros d. destruct (0 <? d)%Z; [unfold Qdiv; apply Qmult_0_l | reflexivity]. }
  rewrite H0. vm_compute. reflexivity.
Qed.

Lemma similarite_sym : forall p1 p2,
  calculer_similarite_pyramidale p1 p2 == calculer_similarite_pyramidale p2 p1.
Proof.
  intros p1 p2. unfold calculer_similarite_pyramidale. cbv zeta.
  rewrite (Qabs_Qminus (Qnat (length (p_upper p1)))).
  replace (Nat.max (length (p_upper p1)) (Nat.max (length (p_upper p2)) 1))
    with (Nat.max (length (p_upper p2)) (Nat.max (length (p_upper p1)) 1)) by lia.
  rewrite (Nat.eqb_sym (length (p_base p2))), (absdiff_sum_comm (p_base p2)).
  destruct (Nat.eqb_spec (length (p_base p1)) (length (p_base p2))) as [Hl|Hl];
    [|reflexivity].
  destruct (p_base p1) as [|x1 t1], (p_base p2) as [|x2 t2]; try reflexivity.
  rewrite (Z.max_comm (py_max (x2 :: t2))), Hl. reflexivity.
Qed.

Lemma fold_max_bounds : forall t a,
  (a <= fold_left Z.max t a)%Z /\ (forall x, In x t -> x <= fold_left Z.max t a)%Z.
Proof.
  induction t as [|y t IH]; intros a; simpl; [split; [lia | tauto]|].
  destruct (IH (Z.max a y)) as [H1 H2]. split; [lia|].
  intros x [->|Hx]; [lia | apply H2, Hx].
Qed.

Lemma py_max_ge : forall l x, In x l -> (x <= py_max l)%Z.
Proof.
  intros [|a t] x H; [destruct H|]. simpl. destruct (fold_max_bounds t a) as [H1 H2].
  destruct H as [->|H]; [exact H1 | apply H2, H].
Qed.

Lemma absdiff_sum_bounds : forall M b1 b2, length b1 = length b2 ->
  Forall (fun x => 0 <= x <= M)%Z b1 -> Forall (fun x => 0 <= x <= M)%Z b2 ->
  (0 <= fold_right Z.add 0%Z (map (fun ab => Z.abs (fst ab - snd ab)) (combine b1 b2))
     <= M * Z.of_nat (length b1))%Z.
Proof.
  intros M. induction b1 as [|x t IH]; intros [|y u] Hl H1 H2; simpl in *; try lia.
  inversion H1; subst. inversion H2; subst.
  specialize (IH u ltac:(lia) ltac:(assumption) ltac:(assumption)). lia.
Qed.

Lemma in01_ratio : forall a b, 0 <= a -> a <= b -> in01 (1 - a / b).
Proof.
  intros a b Ha Hab. destruct (Qlt_le_dec 0 b) as [Hb|Hb].
  - assert (H0 : 0 <= a / b)
      by (apply Qle_shift_div_l; [exact Hb | rewrite Qmult_0_l; exact Ha]).
    assert (H1 : a / b <= 1)
      by (apply Qle_shift_div_r; [exact Hb | rewrite Qmult_1_l; exact Hab]).
    unfold in01. split; lra.
  - assert (Ha0 : a == 0) by lra. unfold in01. rewrite Ha0. unfold Qdiv.
    rewrite Qmult_0_l. split; lra.
Qed.

Lemma similarite_in01 : forall p1 p2,
  Forall (fun x => 0 <= x)%Z (p_base p1) -> Forall (fun x => 0 <= x)%Z (p_base p2) ->
  in01 (calculer_similarite_pyramidale p1 p2).
Proof.
  intros p1 p2 H1 H2. unfold calculer_similarite_pyramidale. cbv zeta.
  set (u1 := length (p_upper p1)). set (u2 := length (p_upper p2)).
  assert (Hs : in01 (1 - Qabs (Qnat u1 - Qnat u2) / Qnat (Nat.max u1 (Nat.max u2 1)))).
  { apply in01_ratio; [apply Qabs_nonneg|]. apply Qabs_Qle_condition.
    unfold Qnat, Qle, Qminus, Qopp, Qplus; simpl. split; lia. }
  assert (Hb : in01 (if negb (Nat.eqb (length (p_base p1)) (length (p_base p2))) then 3 # 10
     else 1 - (if (0 <? match p_base p1, p_base p2 with
                      | _ :: _, _ :: _ =>
                          (Z.max (py_max (p_base p1)) (py_max (p_base p2)) *
                           Z.of_nat (length (p_base p1)))%Z
                      | _, _ => 1%Z end)%Z
               then inject_Z (fold_right Z.add 0%Z
                       (map (fun ab => Z.abs (fst ab - snd ab))
                            (combine (p_base p1) (p_base p2)))) /
                    inject_Z (match p_base p1, p_base p2 with
                      | _ :: _, _ :: _ =>
                          (Z.max (py_max (p_base p1)) (py_max (p_base p2)) *
                           Z.of_nat (length (p_base p1)))%Z
                      | _, _ => 1%Z end)
               else 0))).
  { destruct (Nat.eqb_spec (length (p_base p1)) (length (p_base p2))) as [Hl|Hl];
      cbn [negb]; [|unfold in01; split; lra].
    set (M := Z.max (py_max (p_base p1)) (py_max (p_base p2))).
    assert (HB1 : Forall (fun x => 0 <= x <= M)%Z (p_base p1)).
    { apply Forall_forall. intros x Hx. pose proof (py_max_ge _ _ Hx).
      rewrite Forall_forall in H1. specialize (H1 x Hx). cbv beta in H1. lia. }
    assert (HB2 : Forall (fun x => 0 <= x <= M)%Z (p_base p2)).
    { apply Forall_forall. intros x Hx. pose proof (py_max_ge _ _ Hx).
      rewrite Forall_forall in H2. specialize (H2 x Hx). cbv beta in H2. lia. }
    pose proof (absdiff_sum_bounds M _ _ Hl HB1 HB2) as Hd.
    fold M. destruct (p_base p1) as [|x1 t1], (p_base p2) as [|x2 t2]; simpl in Hl;
      try discriminate.
    - unfold in01, Qle. simpl. split; lia.
    - destruct (0 <? M * Z.of_nat (length (x1 :: t1)))%Z;
        [|unfold in01; split; lra].
      apply in01_ratio; [change 0 with (inject_Z 0)|]; rewrite <- Zle_Qle; lia. }
  destruct Hs as [Hs0 Hs1]. destruct Hb as [Hb0 Hb1].
  unfold in01. split.
  - apply Qle_shift_div_l; [reflexivity|]. lra.
  - apply Qle_shift_div_r; [reflexivity|]. lra.
Qed.

Lemma analyser_differences_self : forall p, analyser_differences p p = [].
Proof.
  intros p. unfold analyser_differences. rewrite !Nat.eqb_refl, Z.eqb_refl. reflexivity.
Qed.

Lemma relation_identite : forall s, s == 1 -> determiner_relation s = "IDENTITÉ STRUCTURELLE".
Proof.
  intros s Hs. unfold determiner_relation.
  replace (Qle_bool (9 # 10) s) with true; [reflexivity|].
  symmetry. apply Qle_bool_iff. rewrite Hs. lra.
Qed.

(** [_calculer_similarite_pyramidale] is symmetric in its two pyramids; a
    pyramid compared with itself scores 1, is related as
    "IDENTITÉ STRUCTURELLE" and shows no structural difference. *)
Theorem similarite_symetrique_reflexive : forall p1 p2,
  calculer_similarite_pyramidale p1 p2 == calculer_similarite_pyramidale p2 p1 /\
  calculer_similarite_pyramidale p1 p1 == 1 /\
  determiner_relation (calculer_similarite_pyramidale p1 p1) = "IDENTITÉ STRUCTURELLE" /\
  analyser_differences p1 p1 = [].
Proof.
  intros p1 p2. split; [apply similarite_sym|]. split; [apply similarite_self|].
  split; [apply relation_identite, similarite_self | apply analyser_differences_self].
Qed.

(** When both bases hold non-negative integers the similarity score lies in
    [[0, 1]]. *)
Theorem similarite_bornee : forall p1 p2,
  Forall (fun x => 0 <= x)%Z (p_base p1) -> Forall (fun x => 0 <= x)%Z (p_base p2) ->
  in01 (calculer_similarite_pyramidale p1 p2).
Proof. exact similarite_in01. Qed.

Lemma similarite_bornee_witness :
  Forall (fun x => 0 <= x)%Z [1; 2]%Z /\ Forall (fun x => 0 <= x)%Z [5]%Z /\
  in01 (calculer_similarite_pyramidale (build_pyramid [1; 2]%Z) (build_pyramid [5]%Z)).
Proof.
  assert (H1 : Forall (fun x => 0 <= x)%Z [1; 2]%Z) by (repeat constructor; lia).
  assert (H2 : Forall (fun x => 0 <= x)%Z [5]%Z) by (repeat constructor; lia).
  split; [exact H1|]. split; [exact H2|].
  exact (similarite_bornee (build_pyramid [1; 2]%Z) (build_pyramid [5]%Z) H1 H2).
Defined.

(** [comparer_sequences] raises the ValueError of [analyser_sequence] as soon
    as one of the two lists is empty. *)
Theorem comparer_sequences_vide : forall l1 nom1 l2 nom2 st,
  heap st l1 = [] \/ heap st l2 = [] ->
  comparer_sequences l1 nom1 l2 nom2 st =
  Err (ValueError "La séquence ne peut pas être vide").
Proof.
  intros l1 nom1 l2 nom2 st H. unfold comparer_sequences.
  destruct (heap st l1) as [|x xs] eqn:E1.
  - unfold analyser_sequence at 1. rewrite E1. reflexivity.
  - destruct H as [H|H]; [discriminate H|].
    destruct (analyser_sequence_nonempty l1 nom1 st ltac:(rewrite E1; discriminate))
      as (st1 & -> & Hh & _).
    cbn [bind]. unfold analyser_sequence. rewrite Hh, H. reflexivity.
Qed.

Lemma comparer_sequences_vide_witness :
  (heap (init [[]; [1]%Z]) 0%nat = [] \/ heap (init [[]; [1]%Z]) 1%nat = []) /\
  comparer_sequences 0%nat "a" 1%nat "b" (init [[]; [1]%Z]) =
  Err (ValueError "La séquence ne peut pas être vide").
Proof.
  assert (H : heap (init [[]; [1]%Z]) 0%nat = [] \/ heap (init [[]; [1]%Z]) 1%nat = [])
    by (left; reflexivity).
  split; [exact H|]. exact (comparer_sequences_vide 0%nat "a" 1%nat "b" _ H).
Defined.

(** Comparing two lists of the same non-empty content (for instance the same
    list twice): the score is 1, the relation "IDENTITÉ STRUCTURELLE", no
    difference is reported; both analyses are logged in order and archived
    (the second name wins when the names coincide). *)
Theorem comparer_sequences_identiques : forall st l1 nom1 l2 nom2,
  heap st l1 <> [] -> heap st l2 = heap st l1 ->
  exists c st',
    comparer_sequences l1 nom1 l2 nom2 st = Ok (c, st') /\
    sequences_comparees c = [nom1; nom2] /\
    score_similarite c == 1 /\
    relation c = "IDENTITÉ STRUCTURELLE" /\
    differences_structurelles c = [] /\
    heap st' = heap st /\
    historique_operations st' =
      (historique_operations st ++
       [{| op_action := "ANALYSE"; op_nom := nom1;
           op_detail := racine_of (build_pyramid (heap st l1)) nom1 |};
        {| op_action := "ANALYSE"; op_nom := nom2;
           op_detail := racine_of (build_pyramid (heap st l1)) nom2 |}])%list /\
    assoc nom2 (archives_analyses st') = Some (analyse_of l2 nom2 (heap st l1)) /\
    assoc nom1 (archives_analyses st') =
      Some (if String.eqb nom1 nom2 then analyse_of l2 nom2 (heap st l1)
            else analyse_of l1 nom1 (heap st l1)).
Proof.
  intros st l1 nom1 l2 nom2 Hne Heq. unfold comparer_sequences.
  unfold analyser_sequence at 1. destruct (heap st l1) as [|x xs] eqn:E1;
    [contradiction|].
  cbn [bind]. unfold analyser_sequence. cbn [heap]. rewrite Heq. cbn [bind].
  eexists _, _. split; [reflexivity|]. cbn.
  split; [reflexivity|].
  split; [apply similarite_self|].
  split; [apply relation_identite, similarite_self|].
  split; [apply analyser_differences_self|].
  split; [reflexivity|].
  split; [rewrite <- app_assoc; reflexivity|].
  split; [apply assoc_dict_set|].
  rewrite assoc_dict_set_eq, assoc_dict_set.
  destruct (String.eqb nom1 nom2); reflexivity.
Qed.

Lemma comparer_sequences_identiques_witness :
  heap (init [[4; 7; 1]%Z]) 0%nat <> [] /\
  heap (init [[4; 7; 1]%Z]) 0%nat = heap (init [[4; 7; 1]%Z]) 0%nat /\
  exists c st',
    comparer_sequences 0%nat "a" 0%nat "b" (init [[4; 7; 1]%Z]) = Ok (c, st') /\
    relation c = "IDENTITÉ STRUCTURELLE".
Proof.
  assert (H : heap (init [[4; 7; 1]%Z]) 0%nat <> []) by discriminate.
  split; [exact H|]. split; [reflexivity|].
  destruct (comparer_sequences_identiques (init [[4; 7; 1]%Z]) 0%nat "a" 0%nat "b" H
              eq_refl) as (c & st' & E & _ & _ & R & _).
  exists c, st'. split; [exact E | exact R].
Defined.

(** If the caller empties an archived list ([sequence.clear()]), verifying
    that name raises the ValueError of [analyser_sequence] instead of
    reporting a status. *)
Theorem verifier_integrite_liste_videe : forall st nom r,
  assoc nom (archives_analyses st) = Some r ->
  verifier_integrite nom (vider_liste (a_sequence r) st) =
  Err (ValueError "La séquence ne peut pas être vide").
Proof.
  intros st nom r H. unfold verifier_integrite. cbn [archives_analyses vider_liste].
  rewrite H. unfold analyser_sequence. cbn [heap vider_liste].
  rewrite Nat.eqb_refl. reflexivity.
Qed.

Definition etat_archive : state :=
  {| heap := fun _ => [1; 2; 3]%Z;
     archives_analyses := [("s", analyse_of 0%nat "s" [1; 2; 3]%Z)];
     historique_operations := [] |}.

Lemma verifier_integrite_liste_videe_witness :
  assoc "s" (archives_analyses etat_archive) = Some (analyse_of 0%nat "s" [1; 2; 3]%Z) /\
  verifier_integrite "s" (vider_liste 0%nat etat_archive) =
  Err (ValueError "La séquence ne peut pas être vide").
Proof.
  assert (H : assoc "s" (archives_analyses etat_archive) =
              Some (analyse_of 0%nat "s" [1; 2; 3]%Z)) by reflexivity.
  split; [exact H|]. exact (verifier_integrite_liste_videe etat_archive "s" _ H).
Defined.

(** A verification of an archived name whose list is non-empty appends
    exactly two operations to the journal, the re-analysis and then the
    verification with its status (never NON_TROUVE), and leaves the lists
    untouched. *)
Theorem verifier_integrite_journal : forall nom st r,
  assoc nom (archives_analyses st) = Some r ->
  heap st (a_sequence r) <> [] ->
  exists v st',
    verifier_integrite nom st = Ok (v, st') /\
    v_statut v <> NON_TROUVE /\
    heap st' = heap st /\
    historique_operations st' =
      (historique_operations st ++
       [{| op_action := "ANALYSE"; op_nom := nom; op_detail := v_signature_actuelle v |};
        {| op_action := "VERIFICATION"; op_nom := nom;
           op_detail := statut_label (v_statut v) |}])%list.
Proof.
  intros nom st r Ha Hne. unfold verifier_integrite. rewrite Ha.
  unfold analyser_sequence. destruct (heap st (a_sequence r)) as [|x xs] eqn:E;
    [contradiction|].
  cbn [bind]. eexists _, _. split; [reflexivity|]. cbn.
  split; [destruct (String.eqb _ _); discriminate|].
  split; [reflexivity|]. rewrite <- app_assoc. reflexivity.
Qed.

Lemma verifier_integrite_journal_witness :
  assoc "s" (archives_analyses etat_archive) = Some (analyse_of 0%nat "s" [1; 2; 3]%Z) /\
  heap etat_archive (a_sequence (analyse_of 0%nat "s" [1; 2; 3]%Z)) <> [] /\
  exists v st', verifier_integrite "s" etat_archive = Ok (v, st') /\ v_statut v <> NON_TROUVE.
Proof.
  assert (H1 : assoc "s" (archives_analyses etat_archive) =
               Some (analyse_of 0%nat "s" [1; 2; 3]%Z)) by reflexivity.
  assert (H2 : heap etat_archive (a_sequence (analyse_of 0%nat "s" [1; 2; 3]%Z)) <> [])
    by discriminate.
  split; [exact H1|]. split; [exact H2|].
  destruct (verifier_integrite_journal "s" etat_archive _ H1 H2) as (v & st' & E & N & _).
  exists v, st'. split; [exact E | exact N].
Defined.

(** [analyser_sequence] raises ValueError exactly on an empty list; otherwise
    it stores the analysis under its name like a Python dict (a name already
    archived keeps its position, a new one is added last, every other entry
    is unchanged), appends one ANALYSE operation and leaves the lists
    untouched. *)
Theorem analyser_sequence_archive : forall l nom st,
  (heap st l = [] ->
   analyser_sequence l nom st = Err (ValueError "La séquence ne peut pas être vide")) /\
  (heap st l <> [] ->
   exists st',
     analyser_sequence l nom st = Ok (analyse_of l nom (heap st l), st') /\
     heap st' = heap st /\
     (forall k, assoc k (archives_analyses st') =
                if String.eqb k nom then Some (analyse_of l nom (heap st l))
                else assoc k (archives_analyses st)) /\
     map fst (archives_analyses st') =
       (if str_in nom (map fst (archives_analyses st))
        then map fst (archives_analyses st)
        else map fst (archives_analyses st) ++ [nom])%list /\
     historique_operations st' =
       (historique_operations st ++
        [{| op_action := "ANALYSE"; op_nom := nom;
            op_detail := racine_of (build_pyramid (heap st l)) nom |}])%list).
Proof.
  intros l nom st. split.
  - intros H. unfold analyser_sequence. rewrite H. reflexivity.
  - intros H. unfold analyser_sequence.
    destruct (heap st l) as [|x xs] eqn:E; [contradiction|].
    eexists. split; [reflexivity|]. cbn.
    split; [reflexivity|]. split; [intros k; apply assoc_dict_set_eq|].
    split; [apply dict_set_keys | reflexivity].
Qed.

Lemma analyser_sequence_archive_witness :
  heap (init [[]; [2; 5]%Z]) 0%nat = [] /\ heap (init [[]; [2; 5]%Z]) 1%nat <> [] /\
  analyser_sequence 0%nat "v" (init [[]; [2; 5]%Z]) =
    Err (ValueError "La séquence ne peut pas être vide") /\
  exists st', analyser_sequence 1%nat "w" (init [[]; [2; 5]%Z]) =
                Ok (analyse_of 1%nat "w" [2; 5]%Z, st').
Proof.
  assert (H0 : heap (init [[]; [2; 5]%Z]) 0%nat = []) by reflexivity.
  assert (H1 : heap (init [[]; [2; 5]%Z]) 1%nat <> []) by discriminate.
  split; [exact H0|]. split; [exact H1|].
  split; [exact (proj1 (analyser_sequence_archive 0%nat "v" _) H0)|].
  destruct (proj2 (analyser_sequence_archive 1%nat "w" _) H1) as (st' & E & _).
  exists st'. exact E.
Defined.

End AlgoVeriteExtra.

(** ** Classification and comparison of [pyramid_analysis.py] *)

Module PyramidAnalyzerProofs.
Import PyramidAnalyzer.

Lemma Qgtb_true : forall a b, b < a -> Qgtb a b = true.
Proof.
  intros a b H. unfold Qgtb. destruct (Qle_bool a b) eqn:E; [|reflexivity].
  apply Qle_bool_iff in E. lra.
Qed.

Lemma Qgtb_false_iff : forall a b, Qgtb a b = false <-> a <= b.
Proof.
  intros a b. unfold Qgtb. rewrite <- Qle_bool_iff.
  destruct (Qle_bool a b); simpl; split; congruence.
Qed.

Lemma In_when : forall s b t, In s (when b t) <-> b = true /\ t = s.
Proof.
  intros s [] t; simpl; split.
  - intros [H|[]]. split; [reflexivity | exact H].
  - intros [_ H]. left. exact H.
  - intros [].
  - intros [H _]. discriminate H.
Qed.

Lemma stability_build : forall np_std base,
  calculate_stability np_std (build_pyramid base) = 1.
Proof.
  intros np_std base. unfold calculate_stability.
  assert (H := build_lower_last_single base). revert H.
  destruct (p_lower (build_pyramid base)) as [|l ls]; intros H; [reflexivity|].
  rewrite H by discriminate. reflexivity.
Qed.

Lemma symmetry_build : forall np_std base,
  symmetry_score (calculate_pyramid_metrics np_std (build_pyramid base)) == 1.
Proof.
  intros np_std base. unfold calculate_pyramid_metrics, pyramid_symmetry.
  cbn [symmetry_score]. rewrite build_upper_length, build_lower_length.
  unfold Qminus. setoid_rewrite Qplus_opp_r. change (Qabs 0) with 0%Q.
  unfold Qdiv. rewrite Qmult_0_l. ring.
Qed.

Lemma height_build : forall np_std base,
  height (calculate_pyramid_metrics np_std (build_pyramid base)) = pred (length base).
Proof.
  intros np_std base. cbn [height calculate_pyramid_metrics].
  rewrite build_upper_length, build_lower_length. apply Nat.max_id.
Qed.

Lemma classify_build : forall np_std base,
  classify_pyramid (calculate_pyramid_metrics np_std (build_pyramid base)) = PERFECT.
Proof.
  intros np_std base. unfold classify_pyramid.
  rewrite (Qgtb_true (symmetry_score (calculate_pyramid_metrics np_std (build_pyramid base)))
             (9 # 10)) by (rewrite symmetry_build; lra).
  cbn [stability_score calculate_pyramid_metrics]. rewrite stability_build.
  rewrite (Qgtb_true 1 (9 # 10)) by lra. reflexivity.
Qed.

Lemma convergence_build : forall np_std base,
  let c := convergence_speed (calculate_pyramid_metrics np_std (build_pyramid base)) in
  Qgtb c (7 # 10) = Nat.leb 4 (length base) /\
  Qgtb (3 # 10) c = Nat.leb (length base) 1.
Proof.
  intros np_std base. cbv zeta. cbn [convergence_speed calculate_pyramid_metrics].
  rewrite build_lower_length. cbn [p_base build_pyramid].
  destruct (length base) as [|n]; [split; reflexivity|].
  change (Nat.ltb 0 (S n)) with true. change (pred (S n)) with n. cbv beta iota.
  assert (Hpos : 0 < Qnat (S n)) by (unfold Qnat, Qlt; simpl; lia).
  split.
  - destruct (Nat.leb_spec 4 (S n)) as [H|H].
    + apply Qgtb_true. apply Qlt_shift_div_l; [exact Hpos|].
      unfold Qnat, Qlt, Qmult; simpl. lia.
    + apply Qgtb_false_iff. apply Qle_shift_div_r; [exact Hpos|].
      unfold Qnat, Qle, Qmult; simpl. lia.
  - destruct (Nat.leb_spec (S n) 1) as [H|H].
    + apply Qgtb_true. replace n with 0%nat by lia. reflexivity.
    + apply Qgtb_false_iff. apply Qle_shift_div_l; [exact Hpos|].
      unfold Qnat, Qle, Qmult; simpl. lia.
Qed.

(** [analyze_pyramid_structure] on any base of [n] integers: the type is
    always PYRAMIDE_PARFAITE, the patterns always contain
    "Structure harmonieuse", and they contain "Convergence rapide" exactly
    when [n >= 4] (the convergence speed is [(n-1)/n]). *)
Theorem analyse_structure_type_motifs : forall np_std np_std_q calculate_entropy base,
  let a := analyze_pyramid_structure np_std np_std_q calculate_entropy base in
  sa_type a = "PYRAMIDE_PARFAITE" /\
  In "Structure harmonieuse" (sa_patterns a) /\
  (In "Convergence rapide" (sa_patterns a) <-> (4 <= length base)%nat).
Proof.
  intros np_std np_std_q ent base. cbv zeta. unfold analyze_pyramid_structure.
  cbn [sa_type sa_patterns]. rewrite classify_build.
  destruct (convergence_build np_std base) as [Hc _].
  unfold detect_patterns. rewrite Hc.
  rewrite (Qgtb_true (symmetry_score (calculate_pyramid_metrics np_std (build_pyramid base)))
             (8 # 10)) by (rewrite symmetry_build; lra).
  split; [reflexivity|].
  rewrite !in_app_iff, !In_when. split.
  - right. right. right. right. split; reflexivity.
  - split.
    + intros [[_ E]|[[_ E]|[[_ E]|[[H _]|[_ E]]]]]; try discriminate E.
      apply Nat.leb_le, H.
    + intros H. right. right. right. left. split; [apply Nat.leb_le, H | reflexivity].
Qed.

(** [_generate_recommendations] after [analyze_pyramid_structure]: the
    instability and asymmetry recommendations never appear; the slow
    convergence one appears exactly when [n <= 1]; the list is the single
    "Structure optimale" line exactly when [n >= 2] and the entropy is at
    most 2. *)
Theorem analyse_structure_recommandations : forall np_std np_std_q calculate_entropy base,
  let r := sa_recommendations (analyze_pyramid_structure np_std np_std_q calculate_entropy base) in
  ~ In "Structure instable - recommandation: renforcer la cohérence" r /\
  ~ In "Asymétrie détectée - équilibrer construction/déconstruction" r /\
  (In "Convergence lente - simplifier la structure de base" r <-> (length base <= 1)%nat) /\
  (r = ["Structure optimale - maintenir la configuration actuelle"] <->
   (2 <= length base)%nat /\ calculate_entropy base <= 2).
Proof.
  intros np_std np_std_q ent base. cbv zeta. unfold analyze_pyramid_structure.
  cbn [sa_recommendations]. rewrite classify_build.
  destruct (convergence_build np_std base) as [_ Hc].
  unfold generate_recommendations. rewrite Hc.
  rewrite (proj2 (Qgtb_false_iff (6 # 10)
             (symmetry_score (calculate_pyramid_metrics np_std (build_pyramid base)))))
    by (rewrite symmetry_build; lra).
  cbn [is_unstable when app p_base build_pyramid].
  pose proof (Qgtb_false_iff (ent base) 2) as He.
  destruct (Nat.leb_spec (length base) 1) as [H1|H1];
    destruct (Qgtb (ent base) 2) eqn:E; cbn [when app].
  - split; [simpl; intuition discriminate|]. split; [simpl; intuition discriminate|].
    split; [simpl; tauto|]. split; [discriminate | lia].
  - split; [simpl; intuition discriminate|]. split; [simpl; intuition discriminate|].
    split; [simpl; tauto|]. split; [discriminate | lia].
  - split; [simpl; intuition discriminate|]. split; [simpl; intuition discriminate|].
    split; [simpl; split; [intuition discriminate | lia]|].
    split; [discriminate | intros [_ H]; apply He in H; discriminate H].
  - split; [simpl; intuition discriminate|]. split; [simpl; intuition discriminate|].
    split; [simpl; split; [intuition discriminate | lia]|].
    split; [intros _; split; [lia | apply He; reflexivity] | reflexivity].
Qed.

(** [compare_pyramids] on two built pyramids: the similarity lies in
    [[2/3, 1]] (stability and symmetry agree, only the heights may differ),
    so the compatibility is never "FAIBLE COMPATIBILITÉ"; bases of equal
    length give similarity 1 and "COMPATIBILITÉ PARFAITE". *)
Theorem compare_pyramides_construites : forall np_std b1 b2,
  let c := compare_pyramids np_std (build_pyramid b1) (build_pyramid b2) in
  2 # 3 <= similarity_score c /\ similarity_score c <= 1 /\
  compatibility c <> "FAIBLE COMPATIBILITÉ" /\
  (length b1 = length b2 ->
   similarity_score c == 1 /\ compatibility c = "COMPATIBILITÉ PARFAITE").
Proof.
  intros np_std b1 b2. cbv zeta. unfold compare_pyramids, assess_compatibility.
  cbn [similarity_score compatibility].
  set (m1 := calculate_pyramid_metrics np_std (build_pyramid b1)).
  set (m2 := calculate_pyramid_metrics np_std (build_pyramid b2)).
  assert (Hst : stability_score m1 = stability_score m2).
  { unfold m1, m2. cbn [stability_score calculate_pyramid_metrics].
    rewrite !stability_build. reflexivity. }
  assert (Hsy : symmetry_score m1 == symmetry_score m2).
  { unfold m1, m2. rewrite !symmetry_build. reflexivity. }
  set (h := 1 - Qabs (Qnat (height m1) - Qnat (height m2)) /
                Qnat (Nat.max (height m1) (Nat.max (height m2) 1))).
  assert (Hh : in01 h).
  { apply AlgoVeriteExtra.in01_ratio; [apply Qabs_nonneg|]. apply Qabs_Qle_condition.
    unfold Qnat, Qle, Qminus, Qopp, Qplus; simpl. split; lia. }
  assert (Hsim : calculate_pyramid_similarity m1 m2 == (h + 2) / (3 # 1)).
  { unfold calculate_pyramid_similarity, Qmean, Qsum. fold h.
    cbn [fold_right length]. change (inject_Z (Z.of_nat 3)) with (3 # 1).
    rewrite Hst, Hsy. unfold Qminus. rewrite !Qplus_opp_r. change (Qabs 0) with 0.
    apply Qdiv_comp; [ring | reflexivity]. }
  destruct Hh as [Hh0 Hh1].
  assert (Hlo : 2 # 3 <= calculate_pyramid_similarity m1 m2).
  { rewrite Hsim. apply Qle_shift_div_l; [reflexivity | lra]. }
  assert (Hhi : calculate_pyramid_similarity m1 m2 <= 1).
  { rewrite Hsim. apply Qle_shift_div_r; [reflexivity | lra]. }
  split; [exact Hlo|]. split; [exact Hhi|]. split.
  - destruct (Qgtb _ (9 # 10)); [discriminate|].
    destruct (Qgtb _ (7 # 10)); [discriminate|].
    rewrite (Qgtb_true _ (5 # 10)) by lra. discriminate.
  - intros Hl.
    assert (Hh1' : h == 1).
    { unfold h, m1, m2. rewrite !height_build, Hl. unfold Qminus.
      rewrite Qplus_opp_r. change (Qabs 0) with 0. unfold Qdiv. rewrite Qmult_0_l. ring. }
    assert (H1 : calculate_pyramid_similarity m1 m2 == 1).
    { rewrite Hsim, Hh1'. reflexivity. }
    split; [exact H1|]. rewrite (Qgtb_true _ (9 # 10)) by lra. reflexivity.
Qed.

Lemma compare_pyramides_construites_witness :
  length [1; 2; 3]%Z = length [7; 0; 7]%Z /\
  compatibility (compare_pyramids (fun _ => 0) (build_pyramid [1; 2; 3]%Z)
                   (build_pyramid [7; 0; 7]%Z)) = "COMPATIBILITÉ PARFAITE".
Proof.
  split; [reflexivity|].
  exact (proj2 (proj2 (proj2 (proj2 (compare_pyramides_construites (fun _ => 0)
                                        [1; 2; 3]%Z [7; 0; 7]%Z))) eq_refl)).
Defined.

End PyramidAnalyzerProofs.

(** ** Further properties of the medical module *)

Module MedicalExtra.
Import Medical MedicalProofs.

Lemma coder_symptomes_length : forall upper syms,
  length (coder_symptomes upper syms) = Nat.max 1 (length syms).
Proof.
  intros upper [|s syms]; [reflexivity|]. unfold coder_symptomes. rewrite length_map. reflexivity.
Qed.

Lemma pyramide_sante_base_length : forall upper pd,
  length (p_base (pyramide_sante (analyser_condition_patient upper pd))) =
  (Nat.max 1 (length (symptomes_of pd)) + 7)%nat.
Proof.
  intros upper pd. unfold analyser_condition_patient, construire_pyramide_sante.
  cbn [pyramide_sante build_pyramid p_base].
  rewrite !length_app, coder_symptomes_length.
  unfold coder_pathologie, coder_profil_patient. cbn [length]. lia.
Qed.

Lemma nodup_length_le : forall l, (length (nodup Z.eq_dec l) <= length l)%nat.
Proof.
  induction l as [|x l IH]; [reflexivity|]. simpl.
  destruct (in_dec Z.eq_dec x l); simpl; lia.
Qed.

Lemma stabilite_structurelle_build : forall b,
  evaluer_stabilite_structurelle (build_pyramid b) = true.
Proof.
  intros b. unfold evaluer_stabilite_structurelle.
  assert (H := build_lower_last_single b). revert H.
  destruct (p_lower (build_pyramid b)) as [|l ls]; intros H; [reflexivity|].
  specialize (H ltac:(discriminate)). apply Nat.leb_le.
  pose proof (nodup_length_le (last (l :: ls) [])). lia.
Qed.

Lemma pyramid_symmetry_build : forall b, pyramid_symmetry (build_pyramid b) == 1.
Proof.
  intros b. unfold pyramid_symmetry. rewrite build_upper_length, build_lower_length.
  unfold Qminus. setoid_rewrite Qplus_opp_r. change (Qabs 0) with 0%Q.
  unfold Qdiv. rewrite Qmult_0_l. ring.
Qed.

(** [_construire_pyramide_sante] on the coded patient: the base holds
    [max(1, len(symptomes)) + 3 + 4] numbers, so both branches have that
    many levels minus one (at least 7); the structure is always judged
    stable (factor 1.0), and "Convergence rapide vers la stabilité" (which
    needs at most 3 lower levels) is never listed. *)
Theorem pyramide_sante_forme : forall upper pd,
  let c := analyser_condition_patient upper pd in
  let n := Nat.max 1 (length (symptomes_of pd)) in
  length (p_base (pyramide_sante c)) = (n + 7)%nat /\
  length (p_upper (pyramide_sante c)) = (n + 6)%nat /\
  length (p_lower (pyramide_sante c)) = (n + 6)%nat /\
  evaluer_stabilite_structurelle (pyramide_sante c) = true /\
  stabilite_facteur (pyramide_sante c) = 1 /\
  ~ In "Convergence rapide vers la stabilité" (indicateurs_favorables c).
Proof.
  intros upper pd c n.
  assert (Hb := pyramide_sante_base_length upper pd).
  assert (Hp : pyramide_sante c = build_pyramid (p_base (pyramide_sante c)))
    by reflexivity.
  assert (Hl : length (p_lower (pyramide_sante c)) = (n + 6)%nat)
    by (rewrite Hp, build_lower_length; fold c n in Hb; rewrite Hb; lia).
  assert (Hs : evaluer_stabilite_structurelle (pyramide_sante c) = true)
    by (rewrite Hp; apply stabilite_structurelle_build).
  split; [exact Hb|].
  split; [rewrite Hp, build_upper_length; fold c n in Hb; rewrite Hb; lia|].
  split; [exact Hl|].
  split; [exact Hs|].
  split; [unfold stabilite_facteur; rewrite Hs; reflexivity|].
  change (indicateurs_favorables c) with
    (identifier_indicateurs_favorables (pyramide_sante c)).
  unfold identifier_indicateurs_favorables.
  replace (Nat.leb (length (p_lower (pyramide_sante c))) 3) with false
    by (symmetry; apply Nat.leb_gt; lia).
  rewrite !in_app_iff. cbn [when app].
  destruct (Qgt (evaluer_harmonie_biologique (pyramide_sante c)) (8#10));
  destruct (Qgt (evaluer_potentiel_retablissement (pyramide_sante c)) (7#10));
  simpl; intuition discriminate.
Qed.

(** [_calculer_resilience] on the health pyramid: the symmetry factor
    [1 - |len(sup) - len(inf)| / max(len(sup), len(inf), 1)] is always 1.0,
    so the resilience is [0.4 r + 0.3 + 0.3 immunity] clamped to [0, 1],
    where [r] is the coded profile resilience over 100. *)
Theorem resilience_sante : forall upper pd,
  resilience_patient (analyser_condition_patient upper pd) ==
  Qmax 0 (Qmin (inject_Z (py_int (resilience_profil (profil_ref_of (profil_of pd)) * 100))
                  / 100 * (4#10) + (3#10)
                + get (immunity_level (profil_of pd)) (7#10) * (3#10)) 1).
Proof.
  intros upper pd. unfold analyser_condition_patient, calculer_resilience.
  cbn [resilience_patient]. unfold construire_pyramide_sante, coder_profil_patient.
  cbv zeta. rewrite pyramid_symmetry_build. unfold profil_of.
  apply Q.max_compat; [reflexivity|]. apply Q.min_compat; [ring | reflexivity].
Qed.

Lemma Qle_bool_false_lt : forall a b, Qle_bool a b = false -> b < a.
Proof.
  intros a b H. apply Qnot_le_lt. intros H'. apply Qle_bool_iff in H'. congruence.
Qed.

(** Python's [int()] is monotone. *)
Lemma py_int_mono : forall x y, x <= y -> (py_int x <= py_int y)%Z.
Proof.
  intros x y H. unfold py_int.
  destruct (Qle_bool 0 x) eqn:Ex, (Qle_bool 0 y) eqn:Ey.
  - apply Qfloor_resp_le. exact H.
  - apply Qle_bool_iff in Ex. apply Qle_bool_false_lt in Ey. lra.
  - apply Qle_bool_false_lt in Ex. apply Qle_bool_iff in Ey.
    assert (H1 : (Qfloor 0 <= Qfloor (- x))%Z) by (apply Qfloor_resp_le; lra).
    assert (H2 : (Qfloor 0 <= Qfloor y)%Z) by (apply Qfloor_resp_le; lra).
    change (Qfloor 0) with 0%Z in H1, H2. lia.
  - assert (H1 : (Qfloor (- y) <= Qfloor (- x))%Z) by (apply Qfloor_resp_le; lra). lia.
Qed.

Lemma duree_base_nonneg : forall k,
  (0 <= get (option_map duree_moyenne (assoc k pathologies_reference)) 10)%Z.
Proof.
  intros k. unfold pathologies_reference. cbn [assoc].
  repeat match goal with |- context [String.eqb ?a ?b] => destruct (String.eqb a b) end;
  cbn; lia.
Qed.

(** [_predire_duree_maladie] is non-decreasing in each of its three
    scores: since it subtracts [(1 - resilience) * 0.3] and
    [(1 - efficacite_traitement) * 0.4], raising the severity, the
    resilience or the treatment score never shortens the predicted
    duration. *)
Theorem duree_maladie_monotone : forall upper p g1 g2 r1 r2 e1 e2 pr,
  g1 <= g2 -> r1 <= r2 -> e1 <= e2 ->
  (predire_duree_maladie upper p g1 r1 e1 pr <= predire_duree_maladie upper p g2 r2 e2 pr)%Z.
Proof.
  intros upper p g1 g2 r1 r2 e1 e2 pr Hg Hr He. unfold predire_duree_maladie. cbv zeta.
  apply Z.max_le_compat_l. apply py_int_mono.
  rewrite (Qmult_comm (inject_Z _)), (Qmult_comm (inject_Z _)).
  apply Qmult_le_compat_r.
  - unfold ajustement_resilience, ajustement_traitement. lra.
  - change 0 with (inject_Z 0). rewrite <- Zle_Qle. apply duree_base_nonneg.
Qed.

Lemma duree_maladie_monotone_witness :
  (2#10) <= (5#10) /\ (5#10) <= (8#10) /\ (1#2) <= (9#10) /\
  (predire_duree_maladie ascii_upper "GRIPPE" (2#10) (5#10) (1#2) profil_vide <=
   predire_duree_maladie ascii_upper "GRIPPE" (5#10) (8#10) (9#10) profil_vide)%Z.
Proof.
  assert (H1 : (2#10) <= (5#10)) by (apply Qle_bool_iff; reflexivity).
  assert (H2 : (5#10) <= (8#10)) by (apply Qle_bool_iff; reflexivity).
  assert (H3 : (1#2) <= (9#10)) by (apply Qle_bool_iff; reflexivity).
  split; [exact H1|]. split; [exact H2|]. split; [exact H3|].
  exact (duree_maladie_monotone ascii_upper "GRIPPE" (2#10) (5#10) (5#10) (8#10)
           (1#2) (9#10) profil_vide H1 H2 H3).
Defined.

Lemma nth_error_seq_val : forall s k j e,
  nth_error (seq s k) j = Some e -> e = (s + j)%nat.
Proof.
  intros s k. revert s. induction k as [|k IH]; intros s j e H; [destruct j; discriminate|].
  destruct j as [|j]; cbn in H.
  - injection H as <-. lia.
  - apply IH in H. lia.
Qed.

Lemma nth_error_map_seq : forall {A} (F : nat -> A) k j y,
  nth_error (map F (seq 0 k)) j = Some y -> y = F j.
Proof.
  intros A F k j y H. rewrite nth_error_map in H.
  destruct (nth_error (seq 0 k) j) as [e|] eqn:E; [|discriminate].
  apply nth_error_seq_val in E. cbn in H. injection H as <-. rewrite E. reflexivity.
Qed.

Section Evolution.

Variables g r : Q.
Hypothesis Hg : 0 <= g.
Hypothesis Hr : 0 <= r.

(** The raw score of day [n] in [_predire_evolution]. *)
Let score_brut (n : nat) : Q :=
  if (Z.of_nat n =? 0)%Z then g
  else Qmax 0 (g * (9#10) ^ Z.of_nat n - r * (15#100) * inject_Z (Z.of_nat n)).

Lemma score_brut_step : forall n, score_brut (S n) <= score_brut n.
Proof.
  intros n. unfold score_brut.
  replace (Z.of_nat (S n) =? 0)%Z with false by (symmetry; apply Z.eqb_neq; lia).
  destruct n as [|m].
  - change (Z.of_nat 0 =? 0)%Z with true. cbv iota.
    change ((9#10) ^ Z.of_nat 1) with (9#10). change (inject_Z (Z.of_nat 1)) with 1.
    apply Q.max_lub; [exact Hg | lra].
  - replace (Z.of_nat (S m) =? 0)%Z with false by (symmetry; apply Z.eqb_neq; lia).
    apply Q.max_le_compat_l.
    rewrite (Nat2Z.inj_succ (S m)). unfold Z.succ.
    rewrite Qpower_plus by (intros E; discriminate E).
    rewrite inject_Z_plus.
    change ((9#10) ^ 1) with (9#10). change (inject_Z 1) with 1.
    assert (HP : 0 <= (9#10) ^ Z.of_nat (S m)) by (apply Qpower_0_le; lra).
    assert (Hgp : 0 <= g * (9#10) ^ Z.of_nat (S m)) by (apply Qmult_le_0_compat; lra).
    assert (Hk : 0 <= inject_Z (Z.of_nat (S m)))
      by (change 0 with (inject_Z 0); rewrite <- Zle_Qle; lia).
    assert (E : g * ((9#10) ^ Z.of_nat (S m) * (9#10)) ==
                g * (9#10) ^ Z.of_nat (S m) * (9#10)) by ring.
    rewrite E. lra.
Qed.

Lemma score_clamp_step : forall n,
  Qmax 0 (Qmin (score_brut (S n)) 1) <= Qmax 0 (Qmin (score_brut n) 1).
Proof.
  intros n. apply Q.max_le_compat_l. apply Q.min_le_compat_r. apply score_brut_step.
Qed.

Lemma score_clamp_mono : forall i j, (i <= j)%nat ->
  Qmax 0 (Qmin (score_brut j) 1) <= Qmax 0 (Qmin (score_brut i) 1).
Proof.
  intros i j H. induction H as [|j H IH]; [apply Qle_refl|].
  eapply Qle_trans; [apply score_clamp_step | exact IH].
Qed.

End Evolution.

(** [_predire_evolution] for a duration [d >= 0]: one entry per day
    [0 .. d], numbered in order; the first day's score is the current
    severity; every score lies in [0, 1]; and the scores never increase
    from one day to a later one. *)
Theorem evolution_predite_decroissante : forall upper pd duree,
  (0 <= duree)%Z ->
  let c := analyser_condition_patient upper pd in
  let ev := predire_evolution c duree in
  length ev = Z.to_nat (duree + 1) /\
  map jour ev = map Z.of_nat (seq 0 (Z.to_nat (duree + 1))) /\
  (exists x, hd_error ev = Some x /\ score_jour x == score_gravite c) /\
  Forall (fun x => in01 (score_jour x)) ev /\
  (forall i j x y, (i <= j)%nat -> nth_error ev i = Some x -> nth_error ev j = Some y ->
     score_jour y <= score_jour x).
Proof.
  intros upper pd duree Hd c ev.
  destruct (condition_in01 upper pd) as [Hg [Hr _]]. fold c in Hg, Hr.
  assert (Hn : Z.to_nat (duree + 1) = S (Z.to_nat duree)) by lia.
  unfold ev, predire_evolution. rewrite Hn.
  split; [rewrite length_map, length_seq; reflexivity|].
  split; [rewrite map_map; reflexivity|].
  split.
  { eexists. split; [reflexivity|]. cbn [seq map hd_error score_jour].
    change (Z.of_nat 0 =? 0)%Z with true. cbv iota. destruct Hg as [Hg0 Hg1].
    apply Qle_antisym.
    - apply Q.max_lub; [exact Hg0 | apply Q.le_min_l].
    - eapply Qle_trans; [|apply Q.le_max_r]. apply Q.min_glb; [apply Qle_refl | exact Hg1]. }
  split.
  { apply Forall_map. apply Forall_forall. intros n _. cbv zeta.
    cbn [score_jour]. apply in01_clamp. }
  intros i j x y Hij Hx Hy.
  apply nth_error_map_seq in Hx, Hy. subst x y. cbv zeta. cbn [score_jour].
  exact (score_clamp_mono (score_gravite c) (resilience_patient c) (proj1 Hg) (proj1 Hr)
           i j Hij).
Qed.

Lemma evolution_predite_decroissante_witness :
  (0 <= 7)%Z /\
  let c := analyser_condition_patient ascii_upper (patient_grippe 30%Z) in
  let ev := predire_evolution c 7 in
  length ev = Z.to_nat (7 + 1) /\
  map jour ev = map Z.of_nat (seq 0 (Z.to_nat (7 + 1))) /\
  (exists x, hd_error ev = Some x /\ score_jour x == score_gravite c) /\
  Forall (fun x => in01 (score_jour x)) ev /\
  (forall i j x y, (i <= j)%nat -> nth_error ev i = Some x -> nth_error ev j = Some y ->
     score_jour y <= score_jour x).
Proof.
  split; [lia|].
  exact (evolution_predite_decroissante ascii_upper (patient_grippe 30%Z) 7 ltac:(lia)).
Defined.





End MedicalExtra.
